(** * keystone_voms.core: VOMS authentication filter

    A shallow embedding of [src/keystone_voms/core.py] and the properties
    of its FQAN parser, error table, tenant resolution, provisioning and
    request processing. *)

From Stdlib Require Import ZArith String Ascii List Bool Lia DecimalString.
From stdpp Require Import base option list gmap strings.

Import ListNotations.
Local Open Scope string_scope.
Local Open Scope Z_scope.

(** ** Python primitives used by the module *)

Module Py.

(** [s.split(sep)] for a one-character separator: the pieces between the
    occurrences of [sep]; never the empty list. *)
Fixpoint split (sep : ascii) (s : string) : list string :=
  match s with
  | EmptyString => [EmptyString]
  | String c s' =>
      if Ascii.eqb c sep then EmptyString :: split sep s'
      else match split sep s' with
           | [] => [String c EmptyString]
           | piece :: pieces => String c piece :: pieces
           end
  end.

(** [sep.join(l)]. *)
Fixpoint join (sep : string) (l : list string) : string :=
  match l with
  | [] => EmptyString
  | [x] => x
  | x :: rest => x ++ sep ++ join sep rest
  end.

(** [l.pop()]: the last element and the shortened list; [None] stands for
    the IndexError raised on an empty list. *)
Fixpoint pop {A} (l : list A) : option (A * list A) :=
  match l with
  | [] => None
  | [x] => Some (x, [])
  | x :: rest =>
      match pop rest with
      | Some (y, rest') => Some (y, x :: rest')
      | None => None
      end
  end.

(** [l[-1]]. *)
Definition last_item {A} (l : list A) : option A := fst <$> pop l.

(** [c in s] for a character. *)
Fixpoint contains (c : ascii) (s : string) : bool :=
  match s with
  | EmptyString => false
  | String c' s' => Ascii.eqb c' c || contains c s'
  end.

(** [str(n)] and ["%d" % n] on an integer. *)
Definition str_int (n : Z) : string := NilZero.string_of_int (Z.to_int n).

End Py.

(** ** Exceptions raised inside the module *)

Inductive Exn : Type :=
| IndexError                          (* pop from empty list *)
| UnboundLocalError (var : string)    (* local read before assignment *)
| KeyError (key : string)
| AttributeError                      (* method missing on the receiver *)
| TypeError                           (* subscript on a value that has none *)
| VomsError (code : Z)                (* class VomsError, built from the native code *)
| ValidationError (what : string)     (* keystone exception.ValidationError *)
| Unauthorized (msg : option string)  (* keystone exception.Unauthorized *)
| UserNotFound (name : string)        (* keystone exception.UserNotFound *)
| RoleNotFound (role_id : string).    (* keystone exception.RoleNotFound *)

#[global] Instance Exn_eq_dec : EqDecision Exn.
Proof. solve_decision. Defined.

(** ** [_split_fqan] *)

Definition slash : ascii := "/"%char.
Definition equals : ascii := "="%char.

(** [x.split("=")[-1]]: the text after the last "=", or all of [x]. *)
Definition after_last_eq (x : string) : string :=
  default EmptyString (Py.last_item (Py.split equals x)).

Definition _split_fqan (fqan : string) : Exn + (string * string * string) :=
  let l := Py.split slash fqan in
  match Py.pop l with
  | None => inl IndexError
  | Some (last, l) =>
      let capability := after_last_eq last in
      match Py.pop l with
      | None => inl IndexError
      | Some (last, l) =>
          let role := after_last_eq last in
          let vogroup := Py.join "/" l in
          inr (vogroup, role, capability)
      end
  end.

(** ** [VomsError] *)

Module VomsErr.

Definition errors : gmap Z (string * option string) :=
  list_to_map
    [ (0, ("none", None));
      (1, ("nosocket", Some "Socket problem"));
      (2, ("noident", Some "Cannot identify itself (certificate problem)"));
      (3, ("comm", Some "Server problem"));
      (4, ("param", Some "Wrong parameters"));
      (5, ("noext", Some "VOMS extension missing"));
      (6, ("noinit", Some "Initialization error"));
      (7, ("time", Some "Error in time checking"));
      (8, ("idcheck", Some "User data in extension different from the real"));
      (9, ("extrainfo", Some "VO name and URI missing"));
      (10, ("format", Some "Wrong data format"));
      (11, ("nodata", Some "Empty extension"));
      (12, ("parse", Some "Parse error"));
      (13, ("dir", Some "Directory error"));
      (14, ("sign", Some "Signature error"));
      (15, ("server", Some "Unidentifiable VOMS server"));
      (16, ("mem", Some "Memory problems"));
      (17, ("verify", Some "Generic verification error"));
      (18, ("type", Some "Returned data of unknown type"));
      (19, ("order", Some "Ordering different than required"));
      (20, ("servercode", Some "Error from the server"));
      (21, ("notavail", Some "Method not available")) ].

Definition http_codes : gmap Z (Z * string) :=
  list_to_map
    [ (5, (400, "Bad Request"));
      (11, (400, "Bad Request"));
      (14, (401, "Not Authorized")) ].

(** The attributes of a constructed VomsError. *)
Record t := { message : string; code : Z; title : string }.

(** [self.errors.get(code, ('oops', 'Unknown error %d' % code))]. *)
Definition lookup (code : Z) : string * option string :=
  default ("oops", Some ("Unknown error " ++ Py.str_int code)) (errors !! code).

(** The local [short] of [__init__]. *)
Definition short (code : Z) : string := fst (lookup code).

(** ["%s" % x] where [x] is a string or None. *)
Definition fmt_s (x : option string) : string := default "None" x.

Definition __init__ (code : Z) : t :=
  let '(short, message) := lookup code in
  let message := "(" ++ Py.str_int code ++ ", " ++ fmt_s message ++ ")" in
  let '(code, title) := default (500, "Unexpected Error") (http_codes !! code) in
  {| message := message; code := code; title := title |}.

End VomsErr.

(** The error kinds and severity classes as the specification enumerates
    them, to be compared with the tables of [VomsError]. *)
Module ErrorSpec.

Inductive Kind :=
| KNone | KSocket | KIdentification | KServerCommunication | KBadParameters
| KMissingExtension | KInitialization | KTimeValidity | KIdentityMismatch
| KMissingVoNameUri | KMalformedData | KEmptyExtension | KParse | KDirectory
| KSignature | KUnidentifiableServer | KMemory | KGenericVerification
| KUnknownDataType | KWrongOrdering | KServerSide | KMethodUnavailable
| KUnknown.

Inductive Severity := BadRequest | SevUnauthorized | Internal.

Definition kinds : list Kind :=
  [ KNone; KSocket; KIdentification; KServerCommunication; KBadParameters;
    KMissingExtension; KInitialization; KTimeValidity; KIdentityMismatch;
    KMissingVoNameUri; KMalformedData; KEmptyExtension; KParse; KDirectory;
    KSignature; KUnidentifiableServer; KMemory; KGenericVerification;
    KUnknownDataType; KWrongOrdering; KServerSide; KMethodUnavailable ].

Definition kind_of_code (code : Z) : Kind :=
  if (0 <=? code) && (code <=? 21) then nth (Z.to_nat code) kinds KUnknown
  else KUnknown.

Definition severity_of_code (code : Z) : Severity :=
  if (code =? 5) || (code =? 11) then BadRequest
  else if code =? 14 then SevUnauthorized
  else Internal.

(** The short name the source gives each kind. *)
Definition source_name (k : Kind) : string :=
  match k with
  | KNone => "none"
  | KSocket => "nosocket"
  | KIdentification => "noident"
  | KServerCommunication => "comm"
  | KBadParameters => "param"
  | KMissingExtension => "noext"
  | KInitialization => "noinit"
  | KTimeValidity => "time"
  | KIdentityMismatch => "idcheck"
  | KMissingVoNameUri => "extrainfo"
  | KMalformedData => "format"
  | KEmptyExtension => "nodata"
  | KParse => "parse"
  | KDirectory => "dir"
  | KSignature => "sign"
  | KUnidentifiableServer => "server"
  | KMemory => "mem"
  | KGenericVerification => "verify"
  | KUnknownDataType => "type"
  | KWrongOrdering => "order"
  | KServerSide => "servercode"
  | KMethodUnavailable => "notavail"
  | KUnknown => "oops"
  end.

Definition http_status (s : Severity) : Z :=
  match s with BadRequest => 400 | SevUnauthorized => 401 | Internal => 500 end.

(** The description a constructed error shows for each kind: none for
    "no error", and the text naming the code for the unknown kind. *)
Definition description (k : Kind) (code : Z) : option string :=
  match k with
  | KNone => None
  | KSocket => Some "Socket problem"
  | KIdentification => Some "Cannot identify itself (certificate problem)"
  | KServerCommunication => Some "Server problem"
  | KBadParameters => Some "Wrong parameters"
  | KMissingExtension => Some "VOMS extension missing"
  | KInitialization => Some "Initialization error"
  | KTimeValidity => Some "Error in time checking"
  | KIdentityMismatch => Some "User data in extension different from the real"
  | KMissingVoNameUri => Some "VO name and URI missing"
  | KMalformedData => Some "Wrong data format"
  | KEmptyExtension => Some "Empty extension"
  | KParse => Some "Parse error"
  | KDirectory => Some "Directory error"
  | KSignature => Some "Signature error"
  | KUnidentifiableServer => Some "Unidentifiable VOMS server"
  | KMemory => Some "Memory problems"
  | KGenericVerification => Some "Generic verification error"
  | KUnknownDataType => Some "Returned data of unknown type"
  | KWrongOrdering => Some "Ordering different than required"
  | KServerSide => Some "Error from the server"
  | KMethodUnavailable => Some "Method not available"
  | KUnknown => Some ("Unknown error " ++ Py.str_int code)
  end.

(** The title shown with each severity. *)
Definition title (s : Severity) : string :=
  match s with
  | BadRequest => "Bad Request"
  | SevUnauthorized => "Not Authorized"
  | Internal => "Unexpected Error"
  end.

(** The error object the specification describes for a native code: the
    code and the description of its kind as message, status and title of
    its severity. *)
Definition error_of_code (code : Z) : VomsErr.t :=
  {| VomsErr.message :=
       "(" ++ Py.str_int code ++ ", "
         ++ VomsErr.fmt_s (description (kind_of_code code) code) ++ ")";
     VomsErr.code := http_status (severity_of_code code);
     VomsErr.title := title (severity_of_code code) |}.

End ErrorSpec.

(** ** Configuration, policy table and VOMS data *)

(** The options of the [voms] group of [CONF] that the filter reads. *)
Record Conf := {
  autocreate_users : bool;
  add_roles : bool;
  user_roles : list string;
}.

(** One value of the policy file: a JSON object with string fields. *)
Abbreviation PolicyEntry := (gmap string string).

(** The attributes of the filter object that the methods read. *)
Record Middleware := {
  voms_json : gmap string PolicyEntry;
  domain : string;
  _no_verify : bool;
}.

(** The structure filled by the native library's [retrieve]. The [fqan]
    array ends at its first NULL entry. *)
Record VomsData := {
  vd_user : string; vd_userca : string; vd_server : string;
  vd_serverca : string; vd_voname : string; vd_uri : string;
  vd_version : Z; vd_serial : string; vd_date1 : string; vd_date2 : string;
  vd_fqan : list (option string);
}.

(** The dict [d] built by [_get_voms_info]. *)
Record VomsInfo := {
  user : string; userca : string; server : string; serverca : string;
  voname : string; uri : string; version : Z; serial : string;
  not_before : string; not_after : string;
  fqans : list string;
}.

(** ** Request environment *)

(** Scalar JSON values of the request body. *)
Inductive JVal := JNull | JBool (b : bool) | JInt (n : Z) | JStr (s : string).

#[global] Instance JVal_eq_dec : EqDecision JVal.
Proof. solve_decision. Defined.

(** Values of the WSGI environment: None, a string, or the parsed request
    parameters (a dict of JSON objects). *)
Inductive EnvVal :=
| EnvNone
| EnvStr (s : string)
| EnvParams (params : gmap string (gmap string JVal)).

#[global] Instance EnvVal_eq_dec : EqDecision EnvVal.
Proof. solve_decision. Defined.

Abbreviation Environ := (gmap string EnvVal).

(** The dict [ssl_dict] handed to [_get_voms_info]. *)
Record SslInfo := {
  ssl_dn : EnvVal;
  ssl_cert : EnvVal;
  ssl_chain : list EnvVal;
}.

Definition SSL_CLIENT_S_DN_ENV : string := "SSL_CLIENT_S_DN".
Definition SSL_CLIENT_CERT_ENV : string := "SSL_CLIENT_CERT".
Definition SSL_CLIENT_CERT_CHAIN_ENV_PREFIX : string := "SSL_CLIENT_CERT_CHAIN_".

(** Python truth value of a JSON scalar. *)
Definition truthy (v : JVal) : bool :=
  match v with
  | JNull => false
  | JBool b => b
  | JInt n => negb (n =? 0)
  | JStr s => negb (String.eqb s "")
  end.

(** [v != s] for a JSON scalar and a string. *)
Definition differs (v : JVal) (s : string) : bool :=
  match v with
  | JStr s' => negb (String.eqb s' s)
  | _ => true
  end.

(** ** Identity backend *)

Record User := {
  user_id : string; user_name : string; user_enabled : bool;
  user_domain_id : string;
}.

Record Project := {
  project_id : string; project_name : string; project_domain_id : string;
}.

Record Role := { role_id : string; role_name : string }.

#[global] Instance User_eq_dec : EqDecision User.
Proof. solve_decision. Defined.
#[global] Instance Project_eq_dec : EqDecision Project.
Proof. solve_decision. Defined.
#[global] Instance Role_eq_dec : EqDecision Role.
Proof. solve_decision. Defined.

(** Modelled from the spec: the storage behind keystone's [identity.Manager]
    and [assignment.Manager], which the repository only calls. Users,
    projects and roles are rows in creation order; tenant memberships and
    role grants are sets ("membership/role grants are set-like, not
    counted"). *)
Record Backend := {
  users : list User;
  projects : list Project;
  roles : list Role;
  memberships : gset (string * string);          (* (user id, tenant id) *)
  grants : gset (string * string * string);      (* (user id, tenant id, role id) *)
}.

(** What a request can change: the identity backend, the number of
    identifiers drawn from [uuid.uuid4], and the request's environment. *)
Record World := {
  backend : Backend;
  uuid_drawn : nat;
  environ : Environ;
}.

Definition set_backend (f : Backend → Backend) (w : World) : World :=
  {| backend := f (backend w); uuid_drawn := uuid_drawn w; environ := environ w |}.

(** ** Computations that read and change the world and may raise *)

Definition M (A : Type) : Type := World → (Exn + A) * World.

Definition ret {A} (a : A) : M A := λ w, (inr a, w).
Definition raise {A} (e : Exn) : M A := λ w, (inl e, w).
Definition bind {A B} (m : M A) (k : A → M B) : M B :=
  λ w, match m w with
       | (inl e, w') => (inl e, w')
       | (inr a, w') => k a w'
       end.
Definition get_backend : M Backend := λ w, (inr (backend w), w).
Definition modify_backend (f : Backend → Backend) : M unit :=
  λ w, (inr tt, set_backend f w).

(** [try: m except: ...]; the handler returns [None] for an exception it
    does not catch. Changes made before the exception stay. *)
Definition try_except {A} (m : M A) (handler : Exn → option (M A)) : M A :=
  λ w, match m w with
       | (inl e, w') =>
           match handler e with
           | Some h => h w'
           | None => (inl e, w')
           end
       | (inr a, w') => (inr a, w')
       end.

Notation "'let!' x ':=' m 'in' k" := (bind m (λ x, k))
  (at level 10, x name, m at level 100, k at level 200).
Notation "m '>>' k" := (bind m (λ _, k))
  (at level 100, k at level 200, right associativity).

(** [for x in l: body(x)]. *)
Fixpoint for_each {A} (l : list A) (body : A → M unit) : M unit :=
  match l with
  | [] => ret tt
  | x :: rest => body x >> for_each rest body
  end.

(** [[f(x) for x in l]]. *)
Fixpoint map_each {A B} (l : list A) (f : A → M B) : M (list B) :=
  match l with
  | [] => ret []
  | x :: rest => let! y := f x in let! ys := map_each rest f in ret (y :: ys)
  end.

(** *** Operations of the managers *)

Module Api.

Definition find_user_by_name (name dom : string) (b : Backend) : option User :=
  find (λ u, bool_decide (user_name u = name ∧ user_domain_id u = dom)) (users b).

Definition find_project_by_name (name dom : string) (b : Backend) : option Project :=
  find (λ p, bool_decide (project_name p = name ∧ project_domain_id p = dom))
       (projects b).

Definition find_role (rid : string) (b : Backend) : option Role :=
  find (λ r, bool_decide (role_id r = rid)) (roles b).

(** [identity_api.get_user_by_name]; raises UserNotFound. *)
Definition get_user_by_name (name dom : string) : M User :=
  let! b := get_backend in
  match find_user_by_name name dom b with
  | Some u => ret u
  | None => raise (UserNotFound name)
  end.

(** [identity_api.get_project_by_name]; [None] stands for ProjectNotFound,
    which its only caller catches. *)
Definition get_project_by_name (name dom : string) : M (option Project) :=
  let! b := get_backend in ret (find_project_by_name name dom b).

Definition create_user (uid : string) (u : User) : M unit :=
  modify_backend (λ b,
    {| users := users b ++ [u]; projects := projects b; roles := roles b;
       memberships := memberships b; grants := grants b |}).

Definition list_projects_for_user (uid : string) : M (list Project) :=
  let! b := get_backend in
  ret (filter (λ p, (uid, project_id p) ∈ memberships b) (projects b)).

Definition add_user_to_project (tenant_id uid : string) : M unit :=
  modify_backend (λ b,
    {| users := users b; projects := projects b; roles := roles b;
       memberships := {[ (uid, tenant_id) ]} ∪ memberships b;
       grants := grants b |}).

Definition list_roles : M (list Role) :=
  let! b := get_backend in ret (roles b).

(** The identifiers of the roles granted to the user on the tenant. *)
Definition get_roles_for_user_and_project (uid tenant_id : string) : M (list string) :=
  let! b := get_backend in
  ret ((λ g, g.2) <$> filter (λ g, g.1 = (uid, tenant_id)) (elements (grants b))).

(** [assignment_api.get_role]; raises RoleNotFound. *)
Definition get_role (rid : string) : M Role :=
  let! b := get_backend in
  match find_role rid b with
  | Some r => ret r
  | None => raise (RoleNotFound rid)
  end.

Definition create_role (rid : string) (r : Role) : M unit :=
  modify_backend (λ b,
    {| users := users b; projects := projects b; roles := roles b ++ [r];
       memberships := memberships b; grants := grants b |}).

Definition add_role_to_user_and_project (uid tenant_id rid : string) : M unit :=
  modify_backend (λ b,
    {| users := users b; projects := projects b; roles := roles b;
       memberships := memberships b;
       grants := {[ (uid, tenant_id, rid) ]} ∪ grants b |}).

End Api.

(** ** The filter *)

Section VomsAuthNMiddleware.

(** The collaborators outside the module: M2Crypto's certificate loader
    ([None] stands for X509Error), the native VOMS library ([inl code] is
    a failed [retrieve] with [v.error.value = code]), the identifiers
    returned by successive [uuid.uuid4().hex] calls, and the
    environment key [keystone.middleware.PARAMS_ENV]. *)
Variable CertChain : Type.
Variable load_cert_chain : SslInfo → option CertChain.
Variable voms_retrieve : bool → CertChain → Z + VomsData.
Variable uuid4_hex : nat → string.
Variable PARAMS_ENV : string.

Variable CONF : Conf.
Variable self : Middleware.

(** [uuid.uuid4().hex]. *)
Definition uuid4 : M string :=
  λ w, (inr (uuid4_hex (uuid_drawn w)),
        {| backend := backend w; uuid_drawn := S (uuid_drawn w);
           environ := environ w |}).

(** The loop over [voms_data.fqan] that stops at the first None. *)
Fixpoint collect_fqans (raw : list (option string)) : list string :=
  match raw with
  | [] => []
  | None :: _ => []
  | Some fqan :: rest => fqan :: collect_fqans rest
  end.

Definition _get_voms_info (ssl_info : SslInfo) : M VomsInfo :=
  match load_cert_chain ssl_info with
  | None => raise (ValidationError "SSL data")
  | Some certs =>
      match voms_retrieve (_no_verify self) certs with
      | inl code => raise (VomsError code)
      | inr voms_data =>
          ret {| user := vd_user voms_data; userca := vd_userca voms_data;
                 server := vd_server voms_data;
                 serverca := vd_serverca voms_data;
                 voname := vd_voname voms_data; uri := vd_uri voms_data;
                 version := vd_version voms_data;
                 serial := vd_serial voms_data;
                 not_before := vd_date1 voms_data;
                 not_after := vd_date2 voms_data;
                 fqans := collect_fqans (vd_fqan voms_data) |}
      end
  end.

(** [params.get(k, {})] on the environment entry: a missing key gives the
    empty dict, a value that is no dict has no [get]. *)
Definition env_params (env : Environ) : Exn + gmap string (gmap string JVal) :=
  match env !! PARAMS_ENV with
  | None => inr ∅
  | Some (EnvParams params) => inr params
  | Some _ => inl AttributeError
  end.

Definition is_applicable : M bool :=
  λ w,
    match env_params (environ w) with
    | inl e => (inl e, w)
    | inr params =>
        let auth := default ∅ (params !! "auth") in
        match auth !! "voms" with
        | Some v =>
            if decide (v = JBool true) then (inr true, w)
            else (inl (ValidationError "Error in JSON, 'voms' must be set to true"), w)
        | None => (inr false, w)
        end
    end.

(** [voinfo is not {}]: an identity test against a dict allocated for the
    comparison, which no other object is. *)
Definition is_not_new_dict (voinfo : PolicyEntry) : bool := true.

(** The [for fqan in user_fqans] loop; the argument and the result are the
    local [voinfo], [None] while it is unassigned. *)
Fixpoint fqan_loop (user_fqans : list string) (voinfo : option PolicyEntry)
  : option PolicyEntry :=
  match user_fqans with
  | [] => voinfo
  | fqan :: rest =>
      let voinfo := default ∅ (voms_json self !! fqan) in
      if is_not_new_dict voinfo then Some voinfo
      else fqan_loop rest (Some voinfo)
  end.

(** The policy entry chosen before the backend is asked for the tenant. *)
Definition select_voinfo (voms_info : VomsInfo) : Exn + PolicyEntry :=
  let user_vo := voname voms_info in
  let user_fqans := fqans voms_info in
  match fqan_loop user_fqans None with
  | None => inl (UnboundLocalError "voinfo")
  | Some voinfo =>
      if decide (voinfo = ∅) then inr (default ∅ (voms_json self !! user_vo))
      else inr voinfo
  end.

Definition _get_project_from_voms (voms_info : VomsInfo) : M Project :=
  match select_voinfo voms_info with
  | inl e => raise e
  | inr voinfo =>
      let tenant_name := default "" (voinfo !! "tenant") in
      let! found := Api.get_project_by_name tenant_name (domain self) in
      match found with
      | Some tenant_ref => ret tenant_ref
      | None => raise (Unauthorized (Some "Your VO is not authorized"))
      end
  end.

Definition _create_user (user_dn : string) : M User :=
  let! uid := uuid4 in
  let user := {| user_id := uid; user_name := user_dn; user_enabled := true;
                 user_domain_id := domain self |} in
  Api.create_user uid user >> ret user.

Definition _add_user_to_tenant (uid tenant_id : string) : M unit :=
  Api.add_user_to_project tenant_id uid.

Definition _search_role (r_name : string) : M (option Role) :=
  let! all := Api.list_roles in
  ret (find (λ role, String.eqb (role_name role) r_name) all).

(** [self.assignment_api.get_role(role_id).get('name')]. *)
Definition role_name_of (rid : string) : M string :=
  let! r := Api.get_role rid in ret (role_name r).

(** The body of the [for r_name in CONF.voms.user_roles] loop. *)
Definition _update_user_roles_body (uid tenant_id : string)
  (role_names : list string) (r_name : string) : M unit :=
  if bool_decide (r_name ∈ role_names) then ret tt
  else
    let! found := _search_role r_name in
    let! role :=
      match found with
      | Some role => ret role
      | None =>
          let! r_id := uuid4 in
          let role := {| role_id := r_id; role_name := r_name |} in
          Api.create_role r_id role >> ret role
      end in
    Api.add_role_to_user_and_project uid tenant_id (role_id role).

Definition _update_user_roles (uid tenant_id : string) : M unit :=
  let! granted := Api.get_roles_for_user_and_project uid tenant_id in
  let! role_names := map_each granted role_name_of in
  for_each (user_roles CONF) (_update_user_roles_body uid tenant_id role_names).

(** The [try ... except UserNotFound] block of [_get_user]. *)
Definition _get_user_lookup (user_dn : string) : M User :=
  try_except (Api.get_user_by_name user_dn (domain self))
    (λ e, match e with
          | UserNotFound _ =>
              Some (if autocreate_users CONF then _create_user user_dn
                    else raise e)
          | _ => None
          end).

(** The membership test and [_add_user_to_tenant] of [_get_user]. *)
Definition _get_user_membership (user_ref : User) (tenant : Project) : M unit :=
  let! tenants := Api.list_projects_for_user (user_id user_ref) in
  if bool_decide (tenant ∈ tenants) then ret tt
  else _add_user_to_tenant (user_id user_ref) (project_id tenant).

(** The [if CONF.voms.autocreate_users] block of [_get_user]. *)
Definition _get_user_provision (user_ref : User) (tenant : Project) : M unit :=
  if autocreate_users CONF then
    _get_user_membership user_ref tenant >>
    (if add_roles CONF
     then _update_user_roles (user_id user_ref) (project_id tenant)
     else ret tt)
  else ret tt.

Definition _get_user (voms_info : VomsInfo) (req_tenant : JVal)
  : M (string * string) :=
  let user_dn := user voms_info in
  let! user_ref := _get_user_lookup user_dn in
  let! tenant := _get_project_from_voms voms_info in
  if truthy req_tenant && differs req_tenant (project_name tenant)
  then raise (Unauthorized None)
  else
    _get_user_provision user_ref tenant >>
    ret (user_dn, project_name tenant).

(** The record [_create_user] builds in a world, and the world it leaves. *)
Definition new_user (user_dn : string) (w : World) : User :=
  {| user_id := uuid4_hex (uuid_drawn w); user_name := user_dn;
     user_enabled := true; user_domain_id := domain self |}.

Definition with_user (u : User) (w : World) : World :=
  {| backend :=
       {| users := users (backend w) ++ [u]; projects := projects (backend w);
          roles := roles (backend w); memberships := memberships (backend w);
          grants := grants (backend w) |};
     uuid_drawn := S (uuid_drawn w); environ := environ w |}.

(** The worlds left by [create_role] after a fresh identifier was drawn, by
    [add_role_to_user_and_project] and by [add_user_to_project]. *)
Definition with_role (r : Role) (w : World) : World :=
  {| backend :=
       {| users := users (backend w); projects := projects (backend w);
          roles := roles (backend w) ++ [r];
          memberships := memberships (backend w);
          grants := grants (backend w) |};
     uuid_drawn := S (uuid_drawn w); environ := environ w |}.

Definition with_grant (uid tenant_id rid : string) (w : World) : World :=
  {| backend :=
       {| users := users (backend w); projects := projects (backend w);
          roles := roles (backend w);
          memberships := memberships (backend w);
          grants := {[ (uid, tenant_id, rid) ]} ∪ grants (backend w) |};
     uuid_drawn := uuid_drawn w; environ := environ w |}.

Definition with_membership (uid tenant_id : string) (w : World) : World :=
  {| backend :=
       {| users := users (backend w); projects := projects (backend w);
          roles := roles (backend w);
          memberships := {[ (uid, tenant_id) ]} ∪ memberships (backend w);
          grants := grants (backend w) |};
     uuid_drawn := uuid_drawn w; environ := environ w |}.

(** A later world of the same request run: rows are only appended to the
    role table and grants only added. *)
Definition grows (w w' : World) : Prop :=
  users (backend w') = users (backend w)
  ∧ projects (backend w') = projects (backend w)
  ∧ memberships (backend w') = memberships (backend w)
  ∧ environ w' = environ w
  ∧ (∃ extra : list Role, roles (backend w') = (roles (backend w) ++ extra)%list)
  ∧ grants (backend w) ⊆ grants (backend w').

(** The first role called [r_name], as [_search_role] finds it. *)
Definition role_by_name (r_name : string) (w : World) : option Role :=
  find (λ role, String.eqb (role_name role) r_name) (roles (backend w)).

(** The role first called [r_name] is granted to the user on the tenant. *)
Definition granted_by_name (uid tenant_id r_name : string) (w : World) : Prop :=
  ∃ role, role_by_name r_name w = Some role
          ∧ (uid, tenant_id, role_id role) ∈ grants (backend w).

(** Every role granted to the user on the tenant is in the role table. *)
Definition grants_resolve (uid tenant_id : string) (w : World) : Prop :=
  ∀ rid, (uid, tenant_id, rid) ∈ grants (backend w) →
         is_Some (Api.find_role rid (backend w)).

(** The identifiers [get_roles_for_user_and_project] returns. *)
Definition granted_ids (uid tenant_id : string) (w : World) : list string :=
  (λ g, g.2) <$> filter (λ g, g.1 = (uid, tenant_id)) (elements (grants (backend w))).

(** What [process_request] hands back to the WSGI layer. *)
Inductive Response :=
| SelfApplication                 (* [return self.application] *)
| PyNone                          (* falling off the end *)
| RenderedException (e : Exn).    (* [wsgi.render_exception(e)] *)

Definition env_get (env : Environ) (key : string) : EnvVal :=
  default EnvNone (env !! key).

Definition make_ssl_dict (env : Environ) : SslInfo :=
  {| ssl_dn := env_get env SSL_CLIENT_S_DN_ENV;
     ssl_cert := env_get env SSL_CLIENT_CERT_ENV;
     ssl_chain :=
       snd <$> List.filter
                 (λ kv, String.prefix SSL_CLIENT_CERT_CHAIN_ENV_PREFIX (fst kv))
                 (map_to_list env) |}.

(** [params["auth"].get("tenantName", None)]. *)
Definition tenant_from_request (env : Environ) : Exn + JVal :=
  match env !! PARAMS_ENV with
  | Some (EnvParams params) =>
      match params !! "auth" with
      | Some auth => inr (default JNull (auth !! "tenantName"))
      | None => inl (KeyError "auth")
      end
  | _ => inl TypeError
  end.

Definition set_remote_user (user_dn : string) : M unit :=
  λ w, (inr tt,
        {| backend := backend w; uuid_drawn := uuid_drawn w;
           environ := <["REMOTE_USER" := EnvStr user_dn]> (environ w) |}).

Definition _process_request : M Response :=
  λ w,
    if decide (env_get (environ w) "REMOTE_USER" = EnvNone) then
      (let! applicable := is_applicable in
       if negb applicable then ret SelfApplication
       else
         let ssl_dict := make_ssl_dict (environ w) in
         let! voms_info := _get_voms_info ssl_dict in
         match tenant_from_request (environ w) with
         | inl e => raise e
         | inr tenant_from_req =>
             let! r := _get_user voms_info tenant_from_req in
             set_remote_user (fst r) >> ret PyNone
         end) w
    else (inr SelfApplication, w).

Definition process_request : M Response :=
  try_except _process_request (λ e, Some (ret (RenderedException e))).

End VomsAuthNMiddleware.

(** ** Tenant resolution as specified *)

(** First match over the FQAN sequence, then the VO name, as the
    specification words it; to be compared with [select_voinfo]. *)
Module ResolverSpec.

Fixpoint first_match (table : gmap string PolicyEntry) (fqans : list string)
  : option PolicyEntry :=
  match fqans with
  | [] => None
  | fqan :: rest =>
      match table !! fqan with
      | Some entry => Some entry
      | None => first_match table rest
      end
  end.

Definition resolve (table : gmap string PolicyEntry) (info : VomsInfo)
  : option string :=
  match first_match table (fqans info) with
  | Some entry => entry !! "tenant"
  | None => table !! voname info ≫= (λ entry, entry !! "tenant")
  end.

End ResolverSpec.

(** ** Concrete collaborators and inputs for the examples *)

Module Fixture.

Definition load_cert_chain (ssl_info : SslInfo) : option SslInfo := Some ssl_info.

Definition retrieve (result : Z + VomsData) (no_verify : bool) (certs : SslInfo)
  : Z + VomsData := result.

Definition uuid4_hex (n : nat) : string :=
  "uuid-" ++ NilZero.string_of_uint (Nat.to_uint n).

Definition PARAMS_ENV : string := "openstack.params".

Definition alice : string := "/DC=org/DC=example/CN=alice".

Definition data (vo : string) (fqan : list (option string)) : VomsData :=
  {| vd_user := alice; vd_userca := "/DC=org/CN=ca";
     vd_server := "/DC=org/CN=voms"; vd_serverca := "/DC=org/CN=ca";
     vd_voname := vo; vd_uri := "voms.example.org:15000"; vd_version := 1;
     vd_serial := "01"; vd_date1 := "20120101000000Z";
     vd_date2 := "20120102000000Z"; vd_fqan := fqan |}.

Definition info (vo : string) (fqans : list string) : VomsInfo :=
  {| user := alice; userca := "/DC=org/CN=ca";
     server := "/DC=org/CN=voms"; serverca := "/DC=org/CN=ca";
     voname := vo; uri := "voms.example.org:15000"; version := 1;
     serial := "01"; not_before := "20120101000000Z";
     not_after := "20120102000000Z"; fqans := fqans |}.

Definition middleware (table : gmap string PolicyEntry) : Middleware :=
  {| voms_json := table; domain := "default"; _no_verify := false |}.

Definition tenant (name : string) : Project :=
  {| project_id := "id-" ++ name; project_name := name;
     project_domain_id := "default" |}.

Definition backend_of (tenants : list Project) : Backend :=
  {| users := []; projects := tenants; roles := [];
     memberships := ∅; grants := ∅ |}.

Definition world (tenants : list Project) (env : Environ) : World :=
  {| backend := backend_of tenants; uuid_drawn := 0; environ := env |}.

Definition conf (autocreate roles : bool) : Conf :=
  {| autocreate_users := autocreate; add_roles := roles;
     user_roles := ["_member_"] |}.

(** A request body [{"auth": {"voms": true, "tenantName": name}}]. *)
Definition voms_request (name : option string) : Environ :=
  {[ PARAMS_ENV :=
       EnvParams {[ "auth" :=
         match name with
         | Some n => {[ "voms" := JBool true; "tenantName" := JStr n ]}
         | None => {[ "voms" := JBool true ]}
         end ]} ]}.

(** A backend in which the principal is already registered. *)
Definition alice_user : User :=
  {| user_id := "id-alice"; user_name := alice; user_enabled := true;
     user_domain_id := "default" |}.

Definition world_with_alice (tenants : list Project) (env : Environ) : World :=
  {| backend := {| users := [alice_user]; projects := tenants; roles := [];
                   memberships := ∅; grants := ∅ |};
     uuid_drawn := 0; environ := env |}.

Definition dteam_fqan : string := "/dteam/Role=NULL/Capability=NULL".
Definition other_fqan : string := "/unknown/Role=NULL/Capability=NULL".

(** A table that maps [dteam_fqan] and the VO name to different tenants. *)
Definition two_entries : gmap string PolicyEntry :=
  {[ dteam_fqan := {[ "tenant" := "dteam-tenant" ]};
     "dteam" := {[ "tenant" := "vo-tenant" ]} ]}.

End Fixture.

(** ** Notions used to state the further properties *)

(** The tenant name a policy entry gives, "" when it has none. *)
Definition entry_tenant (entry : PolicyEntry) : string :=
  default "" (entry !! "tenant").

(** The backend lookup that ends [_get_project_from_voms]. *)
Definition tenant_by_name (self : Middleware) (name : string) (w : World)
  : Exn + Project :=
  match Api.find_project_by_name name (domain self) (backend w) with
  | Some tenant_ref => inr tenant_ref
  | None => inl (Unauthorized (Some "Your VO is not authorized"))
  end.

(** A later world in which nothing was removed or altered: rows were only
    appended to the user and role tables, memberships and grants only
    added, identifiers only drawn; projects and environment are the same. *)
Definition only_adds (w w' : World) : Prop :=
  (∃ extra : list User, users (backend w') = (users (backend w) ++ extra)%list)
  ∧ (∃ extra : list Role, roles (backend w') = (roles (backend w) ++ extra)%list)
  ∧ projects (backend w') = projects (backend w)
  ∧ memberships (backend w) ⊆ memberships (backend w')
  ∧ grants (backend w) ⊆ grants (backend w')
  ∧ (uuid_drawn w ≤ uuid_drawn w')%nat
  ∧ environ w' = environ w.

(** The user holds a role called [r_name] on the tenant: the identifier of
    a row of the role table with that name is granted. *)
Definition holds_role (uid tenant_id r_name : string) (w : World) : Prop :=
  ∃ role, role ∈ roles (backend w) ∧ role_name role = r_name
          ∧ (uid, tenant_id, role_id role) ∈ grants (backend w).


(** * Properties *)

(** ** Python primitives *)

Section PyFacts.

Lemma split_nonempty sep s : Py.split sep s ≠ [].
Proof.
  induction s as [|c s IH]; simpl; [done|].
  destruct (Ascii.eqb c sep); [done|].
  destruct (Py.split sep s); done.
Qed.

Lemma split_no_sep sep s : Py.contains sep s = false → Py.split sep s = [s].
Proof.
  induction s as [|c s IH]; simpl; [done|].
  intros [Hc Hs]%orb_false_iff. rewrite Hc, (IH Hs). done.
Qed.

Lemma split_sep_two sep s :
  Py.contains sep s = true → ∃ a b rest, Py.split sep s = a :: b :: rest.
Proof.
  induction s as [|c s IH]; simpl; [done|].
  destruct (Ascii.eqb c sep) eqn:Hc; simpl.
  - intros _. pose proof (split_nonempty sep s) as Hne.
    destruct (Py.split sep s) as [|b rest]; [done|]. eauto.
  - intros (a & b & rest & ->)%IH. eauto.
Qed.

Lemma split_app sep x y :
  Py.contains sep x = false →
  Py.split sep (x ++ String sep y) = x :: Py.split sep y.
Proof.
  induction x as [|c x IH]; simpl.
  - intros _. by rewrite Ascii.eqb_refl.
  - intros [Hc Hx]%orb_false_iff. by rewrite Hc, (IH Hx).
Qed.

Lemma split_join sep (l : list string) :
  l ≠ [] → Forall (λ x, Py.contains sep x = false) l →
  Py.split sep (Py.join (String sep EmptyString) l) = l.
Proof.
  induction l as [|x [|y l] IH]; [done| |].
  - intros _ [Hx _]%Forall_cons. simpl. by apply split_no_sep.
  - intros _ [Hx Hl]%Forall_cons.
    change (Py.join (String sep "") (x :: y :: l))
      with (x ++ String sep (Py.join (String sep "") (y :: l))).
    rewrite (split_app _ _ _ Hx), IH; done.
Qed.

Lemma pop_snoc {A} (l : list A) x : Py.pop (l ++ [x])%list = Some (x, l).
Proof.
  induction l as [|y l IH]; [done|].
  change ((y :: l) ++ [x])%list with (y :: (l ++ [x]))%list.
  simpl. rewrite IH. by destruct (l ++ [x])%list eqn:E; [destruct l|].
Qed.

Lemma pop_cons {A} (x y : A) l : ∃ z l', Py.pop (x :: y :: l) = Some (z, l') ∧ l' ≠ [].
Proof.
  revert x y. induction l as [|w l IH]; intros x y.
  - by exists y, [x].
  - destruct (IH y w) as (z & l' & Hp & _).
    exists z, (x :: l'). split; [|done].
    change (Py.pop (x :: y :: w :: l))
      with (match Py.pop (y :: w :: l) with
            | Some (v, r) => Some (v, x :: r) | None => None end).
    by rewrite Hp.
Qed.

Lemma pop_some {A} (l : list A) : l ≠ [] → ∃ z l', Py.pop l = Some (z, l').
Proof.
  destruct l as [|x [|y l]]; [done| |]; intros _.
  - by exists x, [].
  - destruct (pop_cons x y l) as (z & l' & ? & _). eauto.
Qed.

Lemma after_last_eq_tagged tag v :
  Py.contains equals tag = false → Py.contains equals v = false →
  after_last_eq (tag ++ String equals v) = v.
Proof.
  intros Ht Hv. unfold after_last_eq, Py.last_item.
  rewrite (split_app _ _ _ Ht), (split_no_sep _ _ Hv). done.
Qed.

End PyFacts.

(** ** The FQAN parser *)

(** C3: for a well-formed FQAN, whose path segments are followed by
    [Role=r] and [Capability=c], the parser returns the leading segments
    rejoined with "/", then [r], then [c]. The segments and the two values
    are free of "/", and the values of "=". *)
Theorem split_fqan_well_formed (groups : list string) (r c : string) :
  Forall (λ g, Py.contains slash g = false) groups →
  Py.contains slash r = false → Py.contains equals r = false →
  Py.contains slash c = false → Py.contains equals c = false →
  _split_fqan (Py.join "/" (groups ++ [("Role=" ++ r)%string; ("Capability=" ++ c)%string])%list)
  = inr (Py.join "/" groups, r, c).
Proof.
  intros Hg Hr Hr' Hc Hc'. unfold _split_fqan.
  rewrite (split_join slash).
  - change (groups ++ [("Role=" ++ r)%string; ("Capability=" ++ c)%string])%list
      with (groups ++ [("Role=" ++ r)%string] ++ [("Capability=" ++ c)%string])%list.
    rewrite app_assoc, pop_snoc, pop_snoc.
    change ("Capability=" ++ c) with ("Capability" ++ String equals c).
    change ("Role=" ++ r) with ("Role" ++ String equals r).
    rewrite !after_last_eq_tagged; done.
  - by destruct groups.
  - apply Forall_app; split; [done|].
    repeat (apply List.Forall_cons || apply List.Forall_nil); simpl; done.
Qed.

Lemma split_fqan_well_formed_witness :
  _split_fqan "/vo/group/Role=r/Capability=c" = inr ("/vo/group", "r", "c").
Proof.
  apply (split_fqan_well_formed [""; "vo"; "group"] "r" "c");
    repeat constructor.
Defined.

(** C4, as the source behaves: the parser returns a triple exactly for the
    strings that contain a "/"; on every other string the second [pop]
    raises IndexError. *)
Theorem split_fqan_total_iff_slash (fqan : string) :
  if Py.contains slash fqan
  then ∃ triple, _split_fqan fqan = inr triple
  else _split_fqan fqan = inl IndexError.
Proof.
  unfold _split_fqan. destruct (Py.contains slash fqan) eqn:Hs.
  - destruct (split_sep_two _ _ Hs) as (a & b & rest & ->).
    destruct (pop_cons a b rest) as (z & l' & -> & Hne).
    destruct (pop_some l' Hne) as (z' & l'' & ->). eauto.
  - by rewrite (split_no_sep _ _ Hs).
Qed.

(** C4 as claimed fails: a string without "/" makes the parser raise. *)
Lemma split_fqan_not_total : ¬ (∀ fqan, ∃ triple, _split_fqan fqan = inr triple).
Proof. intros H. destruct (H "dteam") as [t Ht]. discriminate Ht. Qed.

(** ** The error table *)

Lemma source_name_inj k1 k2 :
  ErrorSpec.source_name k1 = ErrorSpec.source_name k2 → k1 = k2.
Proof. destruct k1, k2; simpl; intros H; first [done | discriminate H]. Qed.

Lemma errors_outside code : ¬ (0 ≤ code ≤ 21) → VomsErr.errors !! code = None.
Proof.
  intros H. apply not_elem_of_list_to_map_1. simpl.
  rewrite !elem_of_cons, elem_of_nil. lia.
Qed.

Lemma http_codes_other code :
  code ≠ 5 → code ≠ 11 → code ≠ 14 → VomsErr.http_codes !! code = None.
Proof.
  intros. apply not_elem_of_list_to_map_1. simpl.
  rewrite !elem_of_cons, elem_of_nil. lia.
Qed.

Lemma voms_error_status code :
  VomsErr.code (VomsErr.__init__ code)
  = ErrorSpec.http_status (ErrorSpec.severity_of_code code).
Proof.
  unfold VomsErr.__init__. destruct (VomsErr.lookup code) as [sh msg].
  destruct (decide (code = 5)) as [->|?]; [done|].
  destruct (decide (code = 11)) as [->|?]; [done|].
  destruct (decide (code = 14)) as [->|?]; [done|].
  rewrite http_codes_other by done. unfold ErrorSpec.severity_of_code.
  destruct (Z.eqb_spec code 5), (Z.eqb_spec code 11), (Z.eqb_spec code 14);
    first [lia | done].
Qed.

Lemma description_inj k1 k2 code1 code2 :
  ErrorSpec.description k1 code1 = ErrorSpec.description k2 code2 → k1 = k2.
Proof.
  destruct k1, k2; intros H; first [reflexivity | discriminate H].
Qed.

Lemma voms_error_lookup code :
  VomsErr.lookup code
  = (ErrorSpec.source_name (ErrorSpec.kind_of_code code),
     ErrorSpec.description (ErrorSpec.kind_of_code code) code).
Proof.
  destruct (decide (0 ≤ code ≤ 21)) as [Hin|Hout].
  - assert (∃ n : nat, code = Z.of_nat n ∧ (n < 22)%nat) as (n & -> & Hn).
    { exists (Z.to_nat code). lia. }
    do 22 (destruct n as [|n]; [by vm_compute|]). lia.
  - unfold VomsErr.lookup. rewrite errors_outside by done.
    unfold ErrorSpec.kind_of_code.
    destruct (Z.leb_spec 0 code), (Z.leb_spec code 21); first [reflexivity|lia].
Qed.

(** C5: for every numeric code the constructed error is the one the
    specification describes: its message carries the code and the
    description of the kind enumerated for the code (codes 0 to 21, and
    the kind "oops" with "Unknown error <code>" for every other code),
    its status and title are those of the specified severity: 400 for 5
    and 11, 401 for 14, 500 otherwise. Different kinds have different
    descriptions, so the message tells the kind. *)
Theorem voms_error_kind_and_severity (code : Z) :
  VomsErr.__init__ code = ErrorSpec.error_of_code code
  ∧ VomsErr.lookup code
    = (ErrorSpec.source_name (ErrorSpec.kind_of_code code),
       ErrorSpec.description (ErrorSpec.kind_of_code code) code)
  ∧ VomsErr.short code = ErrorSpec.source_name (ErrorSpec.kind_of_code code)
  ∧ VomsErr.code (VomsErr.__init__ code)
    = ErrorSpec.http_status (ErrorSpec.severity_of_code code)
  ∧ (ErrorSpec.kind_of_code code = ErrorSpec.KUnknown ↔ ¬ (0 ≤ code ≤ 21))
  ∧ (¬ (0 ≤ code ≤ 21) →
     VomsErr.lookup code = ("oops", Some ("Unknown error " ++ Py.str_int code))
     ∧ VomsErr.code (VomsErr.__init__ code) = 500).
Proof.
  split.
  { unfold VomsErr.__init__, ErrorSpec.error_of_code.
    rewrite voms_error_lookup.
    destruct (decide (code = 5)) as [->|?]; [reflexivity|].
    destruct (decide (code = 11)) as [->|?]; [reflexivity|].
    destruct (decide (code = 14)) as [->|?]; [reflexivity|].
    rewrite http_codes_other by done. unfold ErrorSpec.severity_of_code.
    destruct (Z.eqb_spec code 5), (Z.eqb_spec code 11), (Z.eqb_spec code 14);
      first [lia | reflexivity]. }
  split; [apply voms_error_lookup|].
  split; [unfold VomsErr.short; by rewrite voms_error_lookup|].
  split; [apply voms_error_status|].
  split.
  - unfold ErrorSpec.kind_of_code.
    destruct (Z.leb_spec 0 code), (Z.leb_spec code 21); simpl;
      try (split; [intros _; lia | done]).
    assert (∃ n : nat, code = Z.of_nat n ∧ (n < 22)%nat) as (n & -> & Hn).
    { exists (Z.to_nat code). lia. }
    rewrite Nat2Z.id. split; [|lia].
    do 22 (destruct n as [|n]; [discriminate|]). lia.
  - intros Hout. split.
    + unfold VomsErr.lookup. by rewrite errors_outside.
    + rewrite voms_error_status. unfold ErrorSpec.severity_of_code.
      destruct (Z.eqb_spec code 5), (Z.eqb_spec code 11), (Z.eqb_spec code 14);
        first [lia | done].
Qed.

Lemma voms_error_kind_and_severity_witness :
  VomsErr.lookup 22 = ("oops", Some "Unknown error 22")
  ∧ VomsErr.code (VomsErr.__init__ 22) = 500.
Proof. apply (voms_error_kind_and_severity 22). lia. Defined.

(** The constructed errors at a bad-request, an unauthorized, an internal
    and an unknown code. *)
Example voms_error_objects :
  VomsErr.__init__ 11
  = {| VomsErr.message := "(11, Empty extension)"; VomsErr.code := 400;
       VomsErr.title := "Bad Request" |}
  ∧ VomsErr.__init__ 14
    = {| VomsErr.message := "(14, Signature error)"; VomsErr.code := 401;
         VomsErr.title := "Not Authorized" |}
  ∧ VomsErr.__init__ 0
    = {| VomsErr.message := "(0, None)"; VomsErr.code := 500;
         VomsErr.title := "Unexpected Error" |}
  ∧ VomsErr.__init__ (-3)
    = {| VomsErr.message := "(-3, Unknown error -3)"; VomsErr.code := 500;
         VomsErr.title := "Unexpected Error" |}.
Proof. repeat split; reflexivity. Qed.

(** ** Tenant resolution *)

Lemma fqan_loop_first self fqan rest voinfo :
  fqan_loop self (fqan :: rest) voinfo = Some (default ∅ (voms_json self !! fqan)).
Proof. reflexivity. Qed.

(** The entry the source selects: the one of the first FQAN alone, and the
    VO name's when that one is missing or empty. *)
Lemma select_voinfo_nonempty self info fqan rest :
  fqans info = fqan :: rest →
  select_voinfo self info
  = inr (match voms_json self !! fqan with
         | Some entry =>
             if decide (entry = ∅) then default ∅ (voms_json self !! voname info)
             else entry
         | None => default ∅ (voms_json self !! voname info)
         end).
Proof.
  intros Hf. unfold select_voinfo. rewrite Hf, fqan_loop_first.
  destruct (voms_json self !! fqan) as [entry|]; simpl; by repeat case_decide.
Qed.

Lemma get_project_from_voms_pure self info w :
  snd (_get_project_from_voms self info w) = w.
Proof.
  unfold _get_project_from_voms. destruct (select_voinfo self info); [done|].
  unfold bind, Api.get_project_by_name, bind, get_backend, ret; simpl.
  by destruct (Api.find_project_by_name _ _ _).
Qed.

(** C1, the source at a two-FQAN input: the second FQAN is a key of the
    table, the first is not, and the tenant of the VO name is returned, not
    the one of the matching FQAN that the specified resolver picks. *)
Theorem resolution_ignores_later_fqan :
  let self := Fixture.middleware Fixture.two_entries in
  let info := Fixture.info "dteam" [Fixture.other_fqan; Fixture.dteam_fqan] in
  let w := Fixture.world [Fixture.tenant "dteam-tenant"; Fixture.tenant "vo-tenant"] ∅ in
  ResolverSpec.resolve (voms_json self) info = Some "dteam-tenant"
  ∧ fst (_get_project_from_voms self info w) = inr (Fixture.tenant "vo-tenant").
Proof. split; by vm_compute. Qed.

(** C6, the source on an empty FQAN sequence: the loop body never runs, the
    local [voinfo] is read unassigned and UnboundLocalError escapes; the VO
    name is not looked up and no Unauthorized is raised. *)
Theorem resolution_empty_fqans_unbound (self : Middleware) (vo : string) (w : World) :
  _get_project_from_voms self (Fixture.info vo []) w
  = (inl (UnboundLocalError "voinfo"), w).
Proof. reflexivity. Qed.

(** On a sequence that is not empty and has no key of the table, with the
    VO name no key either, resolution raises Unauthorized as long as the
    backend has no project with the empty name. *)
Lemma resolution_unmapped_unauthorized self info w :
  fqans info ≠ [] →
  Forall (λ fqan, voms_json self !! fqan = None) (fqans info) →
  voms_json self !! voname info = None →
  Api.find_project_by_name "" (domain self) (backend w) = None →
  _get_project_from_voms self info w
  = (inl (Unauthorized (Some "Your VO is not authorized")), w).
Proof.
  intros Hne Hall Hvo Hproj.
  destruct (fqans info) as [|fqan rest] eqn:Hf; [done|].
  apply Forall_cons in Hall as [Hfq _].
  unfold _get_project_from_voms.
  rewrite (select_voinfo_nonempty _ _ _ _ Hf), Hfq, Hvo. simpl.
  unfold bind, Api.get_project_by_name, bind, get_backend, ret; simpl.
  rewrite lookup_empty. simpl. by rewrite Hproj.
Qed.

(** ** Looking up the user and aborting before provisioning *)

Section GetUser.

Variable uuid4_hex : nat → string.
Variable CONF : Conf.
Variable self : Middleware.

Lemma get_user_lookup_run user_dn w :
  _get_user_lookup uuid4_hex CONF self user_dn w
  = match Api.find_user_by_name user_dn (domain self) (backend w) with
    | Some u => (inr u, w)
    | None =>
        if autocreate_users CONF
        then (inr (new_user uuid4_hex self user_dn w),
              with_user (new_user uuid4_hex self user_dn w) w)
        else (inl (UserNotFound user_dn), w)
    end.
Proof.
  unfold _get_user_lookup, try_except, Api.get_user_by_name, bind, get_backend.
  destruct (Api.find_user_by_name _ _ _); [done|]. simpl.
  by destruct (autocreate_users CONF).
Qed.

Lemma get_user_lookup_projects user_dn w :
  projects (backend (snd (_get_user_lookup uuid4_hex CONF self user_dn w)))
  = projects (backend w).
Proof.
  rewrite get_user_lookup_run.
  destruct (Api.find_user_by_name _ _ _); [done|].
  by destruct (autocreate_users CONF).
Qed.

Lemma get_project_from_voms_run info w :
  _get_project_from_voms self info w
  = (fst (_get_project_from_voms self info w), w).
Proof.
  rewrite <- (get_project_from_voms_pure self info w) at 3.
  by destruct (_get_project_from_voms self info w).
Qed.

Lemma get_project_from_voms_projects info w1 w2 :
  projects (backend w1) = projects (backend w2) →
  fst (_get_project_from_voms self info w1)
  = fst (_get_project_from_voms self info w2).
Proof.
  intros Hp. unfold _get_project_from_voms.
  destruct (select_voinfo self info); [done|].
  unfold bind, Api.get_project_by_name, bind, get_backend, ret,
    Api.find_project_by_name; simpl.
  rewrite Hp. by destruct (find _ _).
Qed.

(** [_get_user] step by step: lookup, resolution (which reads the
    projects only, so its outcome is the one in the initial world), the
    requested-tenant test, provisioning. *)
Lemma get_user_run info req w :
  _get_user uuid4_hex CONF self info req w
  = match _get_user_lookup uuid4_hex CONF self (user info) w with
    | (inl e, w1) => (inl e, w1)
    | (inr user_ref, w1) =>
        match fst (_get_project_from_voms self info w) with
        | inl e => (inl e, w1)
        | inr tenant =>
            if truthy req && differs req (project_name tenant)
            then (inl (Unauthorized None), w1)
            else
              match _get_user_provision uuid4_hex CONF user_ref tenant w1 with
              | (inl e, w2) => (inl e, w2)
              | (inr _, w2) => (inr (user info, project_name tenant), w2)
              end
        end
    end.
Proof.
  unfold _get_user, bind at 1.
  pose proof (get_user_lookup_projects (user info) w) as Hp.
  destruct (_get_user_lookup _ _ _ _ w) as [[e|user_ref] w1]; [done|].
  simpl in Hp. unfold bind at 1.
  rewrite (get_project_from_voms_run info w1).
  rewrite (get_project_from_voms_projects info w1 w Hp).
  destruct (fst (_get_project_from_voms self info w)) as [e|tenant]; [done|].
  destruct (truthy req && differs req (project_name tenant)); [done|].
  unfold bind.
  by destruct (_get_user_provision _ _ _ _ w1) as [[e|[]] w2].
Qed.

(** C2, as the source behaves: when tenant resolution fails the request
    adds no membership, role or grant and leaves projects and environment
    alone; the world is unchanged unless [autocreate_users] is set and
    the principal is missing, and then the user record has been created
    before resolution was tried. *)
Theorem resolution_failure_effects info req w e :
  fst (_get_project_from_voms self info w) = inl e →
  let w' := snd (_get_user uuid4_hex CONF self info req w) in
  match Api.find_user_by_name (user info) (domain self) (backend w) with
  | Some _ => w' = w
  | None =>
      if autocreate_users CONF
      then w' = with_user (new_user uuid4_hex self (user info) w) w
      else w' = w
  end.
Proof.
  intros He. simpl. rewrite get_user_run, get_user_lookup_run, He.
  destruct (Api.find_user_by_name _ _ _); [done|].
  by destruct (autocreate_users CONF).
Qed.

(** C7, as the source behaves: when resolution succeeds and the request
    names a non-empty tenant other than the resolved one, [_get_user]
    raises Unauthorized (UserNotFound when the principal is missing and
    [autocreate_users] is off) and adds no membership, role or grant; the
    world is unchanged unless [autocreate_users] is set and the principal
    is missing, and then the user record has been created. *)
Theorem tenant_mismatch_effects info req w tenant :
  fst (_get_project_from_voms self info w) = inr tenant →
  truthy req = true → differs req (project_name tenant) = true →
  _get_user uuid4_hex CONF self info req w
  = match Api.find_user_by_name (user info) (domain self) (backend w) with
    | Some _ => (inl (Unauthorized None), w)
    | None =>
        if autocreate_users CONF
        then (inl (Unauthorized None),
              with_user (new_user uuid4_hex self (user info) w) w)
        else (inl (UserNotFound (user info)), w)
    end.
Proof.
  intros Ht Hreq Hne. rewrite get_user_run, get_user_lookup_run, Ht, Hreq, Hne.
  destruct (Api.find_user_by_name _ _ _); [done|].
  by destruct (autocreate_users CONF).
Qed.

End GetUser.

Lemma resolution_failure_effects_witness :
  snd (_get_user Fixture.uuid4_hex (Fixture.conf true true)
         (Fixture.middleware ∅) (Fixture.info "dteam" [Fixture.dteam_fqan])
         JNull (Fixture.world [] ∅))
  = with_user
      (new_user Fixture.uuid4_hex (Fixture.middleware ∅) Fixture.alice
         (Fixture.world [] ∅))
      (Fixture.world [] ∅).
Proof.
  apply (resolution_failure_effects Fixture.uuid4_hex (Fixture.conf true true)
           (Fixture.middleware ∅) (Fixture.info "dteam" [Fixture.dteam_fqan])
           JNull (Fixture.world [] ∅)
           (Unauthorized (Some "Your VO is not authorized"))).
  reflexivity.
Defined.

(** C2 as claimed fails: with [autocreate_users] set, a missing principal
    and a VO the table does not map, resolution fails and the backend has
    gained a user record. *)
Lemma resolution_failure_creates_user :
  let self := Fixture.middleware ∅ in
  let info := Fixture.info "dteam" [Fixture.dteam_fqan] in
  let w := Fixture.world [] ∅ in
  let run := _get_user Fixture.uuid4_hex (Fixture.conf true false) self info JNull w in
  fst (_get_project_from_voms self info w)
    = inl (Unauthorized (Some "Your VO is not authorized"))
  ∧ fst run = inl (Unauthorized (Some "Your VO is not authorized"))
  ∧ users (backend w) = []
  ∧ users (backend (snd run))
    = [ {| user_id := "uuid-0"; user_name := Fixture.alice;
           user_enabled := true; user_domain_id := "default" |} ].
Proof. repeat split; by vm_compute. Qed.

Lemma tenant_mismatch_effects_witness :
  _get_user Fixture.uuid4_hex (Fixture.conf true true)
    (Fixture.middleware Fixture.two_entries)
    (Fixture.info "dteam" [Fixture.dteam_fqan]) (JStr "other")
    (Fixture.world [Fixture.tenant "dteam-tenant"] ∅)
  = (inl (Unauthorized None),
     with_user
       (new_user Fixture.uuid4_hex (Fixture.middleware Fixture.two_entries)
          Fixture.alice (Fixture.world [Fixture.tenant "dteam-tenant"] ∅))
       (Fixture.world [Fixture.tenant "dteam-tenant"] ∅)).
Proof.
  apply (tenant_mismatch_effects Fixture.uuid4_hex (Fixture.conf true true)
           (Fixture.middleware Fixture.two_entries)
           (Fixture.info "dteam" [Fixture.dteam_fqan]) (JStr "other")
           (Fixture.world [Fixture.tenant "dteam-tenant"] ∅)
           (Fixture.tenant "dteam-tenant")); reflexivity.
Defined.

(** C7 as claimed fails: with [autocreate_users] set and a missing
    principal, a request for a tenant other than the resolved one is
    refused after the user record has been created. *)
Lemma tenant_mismatch_creates_user :
  let self := Fixture.middleware Fixture.two_entries in
  let info := Fixture.info "dteam" [Fixture.dteam_fqan] in
  let w := Fixture.world [Fixture.tenant "dteam-tenant"] ∅ in
  let run := _get_user Fixture.uuid4_hex (Fixture.conf true true) self info
               (JStr "other") w in
  fst (_get_project_from_voms self info w) = inr (Fixture.tenant "dteam-tenant")
  ∧ fst run = inl (Unauthorized None)
  ∧ users (backend w) = []
  ∧ users (backend (snd run))
    = [ {| user_id := "uuid-0"; user_name := Fixture.alice;
           user_enabled := true; user_domain_id := "default" |} ].
Proof. repeat split; by vm_compute. Qed.

(** ** Granting the default roles *)

Lemma find_app_Some {A} (P : A → bool) (l l' : list A) x :
  find P l = Some x → find P (l ++ l') = Some x.
Proof.
  induction l as [|y l IH]; simpl; [done|].
  destruct (P y); [done|apply IH].
Qed.

Lemma find_app_None {A} (P : A → bool) (l l' : list A) :
  find P l = None → find P (l ++ l') = find P l'.
Proof.
  induction l as [|y l IH]; simpl; [done|].
  destruct (P y); [done|apply IH].
Qed.

Lemma world_eq (w w' : World) :
  backend w = backend w' → uuid_drawn w = uuid_drawn w' →
  environ w = environ w' → w = w'.
Proof. destruct w, w'; simpl; congruence. Qed.

Lemma backend_eq (b b' : Backend) :
  users b = users b' → projects b = projects b' → roles b = roles b' →
  memberships b = memberships b' → grants b = grants b' → b = b'.
Proof. destruct b, b'; simpl; congruence. Qed.

Lemma with_grant_present uid tid rid w :
  (uid, tid, rid) ∈ grants (backend w) → with_grant uid tid rid w = w.
Proof.
  intros Hin. apply world_eq; try done.
  apply backend_eq; try done. simpl.
  by apply subseteq_union_1_L, singleton_subseteq_l.
Qed.

Lemma with_membership_present uid tid w :
  (uid, tid) ∈ memberships (backend w) → with_membership uid tid w = w.
Proof.
  intros Hin. apply world_eq; try done.
  apply backend_eq; try done. simpl.
  by apply subseteq_union_1_L, singleton_subseteq_l.
Qed.

Lemma grows_refl w : grows w w.
Proof. repeat split; try done. exists []. by rewrite app_nil_r. Qed.

Lemma grows_trans w1 w2 w3 : grows w1 w2 → grows w2 w3 → grows w1 w3.
Proof.
  intros (Hu & Hp & Hm & He & [x Hr] & Hg) (Hu' & Hp' & Hm' & He' & [y Hr'] & Hg').
  repeat split; try congruence.
  - exists (x ++ y)%list. by rewrite Hr', Hr, app_assoc.
  - by etrans.
Qed.

Lemma grows_with_grant uid tid rid w : grows w (with_grant uid tid rid w).
Proof.
  repeat split; try done; simpl.
  - exists []. by rewrite app_nil_r.
  - set_solver.
Qed.

Lemma grows_with_role r w : grows w (with_role r w).
Proof. repeat split; try done; simpl. by exists [r]. Qed.

Lemma role_by_name_grows r_name role w w' :
  grows w w' → role_by_name r_name w = Some role →
  role_by_name r_name w' = Some role.
Proof.
  intros (_ & _ & _ & _ & [x Hr] & _) Hfind. unfold role_by_name.
  rewrite Hr. by apply find_app_Some.
Qed.

Lemma find_role_grows rid role w w' :
  grows w w' → Api.find_role rid (backend w) = Some role →
  Api.find_role rid (backend w') = Some role.
Proof.
  intros (_ & _ & _ & _ & [x Hr] & _) Hfind. unfold Api.find_role.
  rewrite Hr. by apply find_app_Some.
Qed.

Lemma granted_by_name_grows uid tid r_name w w' :
  grows w w' → granted_by_name uid tid r_name w →
  granted_by_name uid tid r_name w'.
Proof.
  intros Hg (role & Hfind & Hin). exists role. split.
  - by eapply role_by_name_grows.
  - destruct Hg as (_ & _ & _ & _ & _ & Hsub). set_solver.
Qed.

Lemma find_role_of_row role (l : list Role) :
  role ∈ l → is_Some (find (λ r, bool_decide (role_id r = role_id role)) l).
Proof.
  induction 1 as [role l|role y l Hin IH]; simpl.
  - rewrite bool_decide_eq_true_2; eauto.
  - destruct (bool_decide _); eauto.
Qed.

Lemma find_some_elem {A} (P : A → bool) (l : list A) x :
  find P l = Some x → x ∈ l ∧ P x = true.
Proof.
  induction l as [|y l IH]; simpl; [done|].
  destruct (P y) eqn:HP.
  - intros [= ->]. split; [left|done].
  - intros [? ?]%IH. split; [by right|done].
Qed.

Section UpdateUserRoles.

Variable uuid4_hex : nat → string.
Variable CONF : Conf.
Variables uid tid : string.

Let body := _update_user_roles_body uuid4_hex uid tid.

Lemma update_body_run N r_name w :
  body N r_name w
  = if bool_decide (r_name ∈ N) then (inr tt, w)
    else match role_by_name r_name w with
         | Some role => (inr tt, with_grant uid tid (role_id role) w)
         | None =>
             let role := {| role_id := uuid4_hex (uuid_drawn w);
                            role_name := r_name |} in
             (inr tt, with_grant uid tid (role_id role) (with_role role w))
         end.
Proof.
  unfold body, _update_user_roles_body. case_bool_decide; [done|].
  unfold bind at 1. unfold _search_role, Api.list_roles, bind, get_backend, ret.
  simpl. unfold role_by_name. by destruct (find _ _).
Qed.

Lemma update_body_ok N r_name w : fst (body N r_name w) = inr tt.
Proof.
  rewrite update_body_run. case_bool_decide; [done|].
  by destruct (role_by_name r_name w).
Qed.

Lemma update_body_grows N r_name w : grows w (snd (body N r_name w)).
Proof.
  rewrite update_body_run. case_bool_decide; [apply grows_refl|].
  destruct (role_by_name r_name w); simpl.
  - apply grows_with_grant.
  - eapply grows_trans; [apply grows_with_role|apply grows_with_grant].
Qed.

Lemma update_body_granted N r_name w :
  r_name ∈ N ∨ granted_by_name uid tid r_name (snd (body N r_name w)).
Proof.
  rewrite update_body_run. case_bool_decide; [by left|right].
  destruct (role_by_name r_name w) as [role|] eqn:Hfind; simpl.
  - exists role. split; [done|]. simpl. set_solver.
  - eexists. split.
    + unfold role_by_name in *. simpl. rewrite find_app_None by done.
      simpl. by rewrite String.eqb_refl.
    + simpl. set_solver.
Qed.

Lemma update_body_resolve N r_name w :
  grants_resolve uid tid w → grants_resolve uid tid (snd (body N r_name w)).
Proof.
  intros Hres. rewrite update_body_run. case_bool_decide; [done|].
  destruct (role_by_name r_name w) as [role|] eqn:Hfind; simpl; intros rid; simpl.
  - rewrite elem_of_union, elem_of_singleton. intros [[= ->]|Hin]; [|by apply Hres].
    apply find_some_elem in Hfind as [Hin _]. by apply find_role_of_row.
  - rewrite elem_of_union, elem_of_singleton. intros [[= ->]|Hin].
    + apply (find_role_of_row {| role_id := _; role_name := r_name |}).
      simpl. apply elem_of_app. right. by left.
    + destruct (Hres rid Hin) as [role Hrole]. exists role.
      unfold Api.find_role. simpl. by apply find_app_Some.
Qed.

Lemma update_body_fixed N r_name w :
  r_name ∈ N ∨ granted_by_name uid tid r_name w →
  body N r_name w = (inr tt, w).
Proof.
  intros H. rewrite update_body_run. case_bool_decide; [done|].
  destruct H as [?|(role & -> & Hin)]; [done|].
  by rewrite with_grant_present.
Qed.

Lemma update_loop_run N (l : list string) w :
  ∃ w', for_each l (body N) w = (inr tt, w')
        ∧ grows w w'
        ∧ (grants_resolve uid tid w → grants_resolve uid tid w')
        ∧ Forall (λ r_name, r_name ∈ N ∨ granted_by_name uid tid r_name w') l.
Proof.
  revert w. induction l as [|r_name l IH]; intros w.
  - exists w. split; [done|]. split; [apply grows_refl|]. split; [done|constructor].
  - simpl. unfold bind.
    pose proof (update_body_ok N r_name w) as Hok.
    pose proof (update_body_grows N r_name w) as Hgrow.
    pose proof (update_body_resolve N r_name w) as Hres.
    pose proof (update_body_granted N r_name w) as Hgr.
    destruct (body N r_name w) as [[e|[]] w1]; [done|]. simpl in *.
    destruct (IH w1) as (w' & Hrun & Hgrow' & Hres' & Hall).
    exists w'. split; [done|]. split; [by eapply grows_trans|]. split; [tauto|].
    constructor; [|done].
    destruct Hgr as [?|?]; [by left|right]. by eapply granted_by_name_grows.
Qed.

Lemma update_loop_fixed N (l : list string) w :
  Forall (λ r_name, r_name ∈ N ∨ granted_by_name uid tid r_name w) l →
  for_each l (body N) w = (inr tt, w).
Proof.
  induction 1 as [|r_name l Hr _ IH]; [done|].
  simpl. unfold bind. by rewrite (update_body_fixed _ _ _ Hr).
Qed.

Lemma elem_of_granted_ids rid w :
  rid ∈ granted_ids uid tid w ↔ (uid, tid, rid) ∈ grants (backend w).
Proof.
  unfold granted_ids. rewrite list_elem_of_fmap. split.
  - intros ([[u t] r] & -> & [Hk Hin]%list_elem_of_filter). simpl in *.
    injection Hk as -> ->. by apply elem_of_elements.
  - intros Hin. exists (uid, tid, rid). split; [done|].
    apply list_elem_of_filter. split; [done|]. by apply elem_of_elements.
Qed.

Lemma map_each_cons {A B} (f : A → M B) x (l : list A) w :
  map_each (x :: l) f w
  = match f x w with
    | (inl e, w1) => (inl e, w1)
    | (inr y, w1) =>
        match map_each l f w1 with
        | (inl e, w2) => (inl e, w2)
        | (inr ys, w2) => (inr (y :: ys), w2)
        end
    end.
Proof.
  simpl. unfold bind at 1. destruct (f x w) as [[e|y] w1]; [done|].
  unfold bind. by destruct (map_each l f w1) as [[e|ys] w2].
Qed.

Lemma role_name_of_run rid w :
  role_name_of rid w
  = match Api.find_role rid (backend w) with
    | Some role => (inr (role_name role), w)
    | None => (inl (RoleNotFound rid), w)
    end.
Proof.
  unfold role_name_of, Api.get_role, bind, get_backend.
  by destruct (Api.find_role rid (backend w)).
Qed.

(** Collecting the names of the granted roles reads the backend only; it
    succeeds exactly when every identifier is in the role table. *)
Lemma role_names_cases (ids : list string) w :
  (∃ N, map_each ids role_name_of w = (inr N, w)
        ∧ Forall2 (λ rid name, ∃ role, Api.find_role rid (backend w) = Some role
                                       ∧ role_name role = name) ids N)
  ∨ (∃ e, map_each ids role_name_of w = (inl e, w)
          ∧ Exists (λ rid, Api.find_role rid (backend w) = None) ids).
Proof.
  induction ids as [|rid ids IH].
  - left. exists []. split; [done|constructor].
  - rewrite map_each_cons, role_name_of_run.
    destruct (Api.find_role rid (backend w)) as [role|] eqn:Hrole.
    + destruct IH as [(N & HN & HF)|(e & He & Hex)].
      * left. exists (role_name role :: N). rewrite HN. split; [done|].
        constructor; eauto.
      * right. exists e. rewrite He. split; [done|]. by right.
    + right. exists (RoleNotFound rid). split; [done|]. by left.
Qed.

Lemma update_user_roles_run w :
  _update_user_roles uuid4_hex CONF uid tid w
  = match map_each (granted_ids uid tid w) role_name_of w with
    | (inl e, _) => (inl e, w)
    | (inr N, _) => for_each (user_roles CONF) (body N) w
    end.
Proof.
  unfold _update_user_roles, bind at 1.
  unfold Api.get_roles_for_user_and_project, bind at 1, get_backend, ret.
  fold (granted_ids uid tid w). unfold bind at 1.
  by destruct (role_names_cases (granted_ids uid tid w) w)
    as [(N & -> & _)|(e & -> & _)].
Qed.

Lemma update_user_roles_grows w :
  grows w (snd (_update_user_roles uuid4_hex CONF uid tid w)).
Proof.
  rewrite update_user_roles_run.
  destruct (role_names_cases (granted_ids uid tid w) w)
    as [(N & -> & _)|(e & -> & _)]; [|apply grows_refl].
  by destruct (update_loop_run N (user_roles CONF) w) as (w' & -> & ? & _).
Qed.

(** A second run of [_update_user_roles] finds every configured role
    name among the granted ones, or its first role granted already. *)
Lemma update_user_roles_idempotent w :
  let w' := snd (_update_user_roles uuid4_hex CONF uid tid w) in
  snd (_update_user_roles uuid4_hex CONF uid tid w') = w'.
Proof.
  simpl. rewrite (update_user_roles_run w).
  destruct (role_names_cases (granted_ids uid tid w) w)
    as [(N & HN & HF)|(e & He & _)].
  2: { rewrite He. simpl. by rewrite update_user_roles_run, He. }
  rewrite HN.
  destruct (update_loop_run N (user_roles CONF) w)
    as (w' & -> & Hgrow & Hres & Hall). simpl.
  assert (grants_resolve uid tid w) as Hres0.
  { intros rid [i Hi]%elem_of_granted_ids%list_elem_of_lookup.
    destruct (Forall2_lookup_l _ _ _ _ _ HF Hi) as (? & _ & role & -> & _). eauto. }
  specialize (Hres Hres0).
  rewrite update_user_roles_run.
  destruct (role_names_cases (granted_ids uid tid w') w')
    as [(N' & -> & HF')|(e & _ & Hex)].
  2: { apply Exists_exists in Hex as (rid & Hin%elem_of_granted_ids & Hnone).
       destruct (Hres rid Hin) as [? ?]. congruence. }
  rewrite update_loop_fixed; [done|].
  eapply Forall_impl; [exact Hall|]. intros r_name [Hin|?]; [left|by right].
  apply list_elem_of_lookup in Hin as [j Hj].
  destruct (Forall2_lookup_r _ _ _ _ _ HF Hj) as (rid & Hrid & role & Hrole & <-).
  assert (rid ∈ granted_ids uid tid w') as [k Hk]%list_elem_of_lookup.
  { apply elem_of_granted_ids.
    destruct Hgrow as (_ & _ & _ & _ & _ & Hsub). apply Hsub.
    apply elem_of_granted_ids, list_elem_of_lookup. eauto. }
  destruct (Forall2_lookup_l _ _ _ _ _ HF' Hk) as (name & Hname & role' & Hrole' & <-).
  rewrite (find_role_grows _ _ _ _ Hgrow Hrole) in Hrole'.
  injection Hrole' as <-. apply list_elem_of_lookup. eauto.
Qed.

End UpdateUserRoles.

(** ** Provisioning twice *)

Section Idempotence.

Variable uuid4_hex : nat → string.
Variable CONF : Conf.
Variable self : Middleware.

Lemma membership_step_run user_ref tenant w :
  ∃ w', _get_user_membership user_ref tenant w = (inr tt, w')
        ∧ (w' = w ∨ w' = with_membership (user_id user_ref) (project_id tenant) w)
        ∧ (user_id user_ref, project_id tenant) ∈ memberships (backend w').
Proof.
  unfold _get_user_membership, bind, Api.list_projects_for_user, bind, get_backend, ret.
  simpl. case_bool_decide as Hin.
  - exists w. split; [done|]. split; [by left|].
    by apply list_elem_of_filter in Hin as [Hin _].
  - eexists. split; [done|]. split; [by right|]. simpl. set_solver.
Qed.

Lemma membership_step_fixed user_ref tenant w :
  (user_id user_ref, project_id tenant) ∈ memberships (backend w) →
  _get_user_membership user_ref tenant w = (inr tt, w).
Proof.
  intros Hin. destruct (membership_step_run user_ref tenant w)
    as (w' & -> & [->| ->] & _); [done|].
  by rewrite with_membership_present.
Qed.

Lemma get_user_provision_run user_ref tenant w :
  _get_user_provision uuid4_hex CONF user_ref tenant w
  = if autocreate_users CONF then
      match _get_user_membership user_ref tenant w with
      | (inl e, w1) => (inl e, w1)
      | (inr _, w1) =>
          if add_roles CONF
          then _update_user_roles uuid4_hex CONF (user_id user_ref)
                 (project_id tenant) w1
          else (inr tt, w1)
      end
    else (inr tt, w).
Proof.
  unfold _get_user_provision. destruct (autocreate_users CONF); [|done].
  unfold bind at 1.
  destruct (_get_user_membership user_ref tenant w) as [[e|[]] w1]; [done|].
  by destruct (add_roles CONF).
Qed.

(** Provisioning leaves users, projects and the environment alone. *)
Lemma get_user_provision_frame user_ref tenant w :
  let w' := snd (_get_user_provision uuid4_hex CONF user_ref tenant w) in
  users (backend w') = users (backend w)
  ∧ projects (backend w') = projects (backend w)
  ∧ environ w' = environ w.
Proof.
  simpl. rewrite get_user_provision_run.
  destruct (autocreate_users CONF); [|done].
  destruct (membership_step_run user_ref tenant w) as (w1 & -> & Hw1 & _).
  assert (users (backend w1) = users (backend w)
          ∧ projects (backend w1) = projects (backend w)
          ∧ environ w1 = environ w) as (Hu & Hp & He).
  { by destruct Hw1 as [->| ->]. }
  destruct (add_roles CONF); [|done].
  pose proof (update_user_roles_grows uuid4_hex CONF (user_id user_ref)
                (project_id tenant) w1) as (Hu' & Hp' & _ & He' & _).
  repeat split; congruence.
Qed.

Lemma get_user_provision_idempotent user_ref tenant w :
  let w' := snd (_get_user_provision uuid4_hex CONF user_ref tenant w) in
  snd (_get_user_provision uuid4_hex CONF user_ref tenant w') = w'.
Proof.
  simpl. rewrite (get_user_provision_run _ _ w).
  destruct (autocreate_users CONF) eqn:Hauto.
  2: { simpl. by rewrite get_user_provision_run, Hauto. }
  destruct (membership_step_run user_ref tenant w) as (w1 & -> & _ & Hin).
  destruct (add_roles CONF) eqn:Hroles.
  - pose proof (update_user_roles_grows uuid4_hex CONF (user_id user_ref)
                  (project_id tenant) w1) as (_ & _ & Hm & _).
    rewrite get_user_provision_run, Hauto, Hroles.
    rewrite membership_step_fixed by (by rewrite Hm).
    apply update_user_roles_idempotent.
  - simpl. rewrite get_user_provision_run, Hauto, Hroles.
    by rewrite membership_step_fixed.
Qed.

Lemma find_user_created user_dn w :
  Api.find_user_by_name user_dn (domain self) (backend w) = None →
  Api.find_user_by_name user_dn (domain self)
    (backend (with_user (new_user uuid4_hex self user_dn w) w))
  = Some (new_user uuid4_hex self user_dn w).
Proof.
  intros Hnone. unfold Api.find_user_by_name in *. simpl.
  rewrite find_app_None by done. simpl.
  by rewrite bool_decide_eq_true_2.
Qed.

(** After the lookup of a first run, a run in any world with the same user
    table finds the same user and changes nothing. *)
Lemma get_user_lookup_again user_dn w user_ref w1 w2 :
  _get_user_lookup uuid4_hex CONF self user_dn w = (inr user_ref, w1) →
  users (backend w2) = users (backend w1) →
  _get_user_lookup uuid4_hex CONF self user_dn w2 = (inr user_ref, w2).
Proof.
  rewrite !get_user_lookup_run. intros Hrun Hu.
  assert (Api.find_user_by_name user_dn (domain self) (backend w2)
          = Some user_ref) as ->; [|done].
  unfold Api.find_user_by_name at 1. rewrite Hu.
  fold (Api.find_user_by_name user_dn (domain self) (backend w1)).
  destruct (Api.find_user_by_name user_dn (domain self) (backend w)) eqn:Hf.
  - by injection Hrun as <- <-.
  - destruct (autocreate_users CONF); [|done].
    injection Hrun as <- <-. by apply find_user_created.
Qed.

(** C8: a second [_get_user] with the same inputs, run in the world the
    first one left, leaves that world as it is: no user, membership, role
    or grant is added and no identifier is drawn. *)
Theorem get_user_idempotent (info : VomsInfo) (req : JVal) (w : World) :
  let w' := snd (_get_user uuid4_hex CONF self info req w) in
  snd (_get_user uuid4_hex CONF self info req w') = w'.
Proof.
  simpl. rewrite (get_user_run _ _ _ _ _ w).
  pose proof (get_user_lookup_projects uuid4_hex CONF self (user info) w) as Hp.
  destruct (_get_user_lookup uuid4_hex CONF self (user info) w)
    as [[e|user_ref] w1] eqn:Hlook.
  { (* the principal is missing and is not created: nothing changed *)
    simpl. rewrite get_user_lookup_run in Hlook.
    destruct (Api.find_user_by_name _ _ _) eqn:Hfind; [done|].
    destruct (autocreate_users CONF) eqn:Hauto; [done|].
    injection Hlook as <- <-.
    by rewrite get_user_run, get_user_lookup_run, Hfind, Hauto. }
  simpl in Hp.
  assert (∀ w2, users (backend w2) = users (backend w1) →
                projects (backend w2) = projects (backend w1) →
                _get_user uuid4_hex CONF self info req w2
                = match fst (_get_project_from_voms self info w) with
                  | inl e => (inl e, w2)
                  | inr tenant =>
                      if truthy req && differs req (project_name tenant)
                      then (inl (Unauthorized None), w2)
                      else
                        match _get_user_provision uuid4_hex CONF user_ref tenant w2 with
                        | (inl e, w3) => (inl e, w3)
                        | (inr _, w3) => (inr (user info, project_name tenant), w3)
                        end
                  end) as Hagain.
  { intros w2 Hu2 Hp2. rewrite get_user_run.
    rewrite (get_user_lookup_again _ _ _ _ _ Hlook Hu2).
    by rewrite (get_project_from_voms_projects self info w2 w) by congruence. }
  destruct (fst (_get_project_from_voms self info w)) as [e|tenant] eqn:Hres.
  { simpl. by rewrite Hagain. }
  destruct (truthy req && differs req (project_name tenant)) eqn:Hreq.
  { simpl. by rewrite Hagain. }
  pose proof (get_user_provision_frame user_ref tenant w1) as (Hu & Hp' & _).
  pose proof (get_user_provision_idempotent user_ref tenant w1) as Hidem.
  simpl in Hu, Hp', Hidem.
  destruct (_get_user_provision uuid4_hex CONF user_ref tenant w1)
    as [[e|[]] w2] eqn:Hprov; simpl in *;
    rewrite Hagain by done;
    by destruct (_get_user_provision uuid4_hex CONF user_ref tenant w2)
      as [[e'|[]] w3].
Qed.

End Idempotence.

(** ** Request processing *)

Section ProcessRequest.

Variable CertChain : Type.
Variable load_cert_chain : SslInfo → option CertChain.
Variable voms_retrieve : bool → CertChain → Z + VomsData.
Variable uuid4_hex : nat → string.
Variable PARAMS_ENV : string.
Variable CONF : Conf.
Variable self : Middleware.

Let validate := _get_voms_info CertChain load_cert_chain voms_retrieve self.
Let inner := _process_request CertChain load_cert_chain voms_retrieve
               uuid4_hex PARAMS_ENV CONF self.
Let outer := process_request CertChain load_cert_chain voms_retrieve
               uuid4_hex PARAMS_ENV CONF self.

Lemma get_voms_info_run ssl_info w : validate ssl_info w = (fst (validate ssl_info w), w).
Proof.
  unfold validate, _get_voms_info. destruct (load_cert_chain ssl_info); [|done].
  by destruct (voms_retrieve _ _).
Qed.

Lemma is_applicable_run w :
  is_applicable PARAMS_ENV w = (fst (is_applicable PARAMS_ENV w), w).
Proof.
  unfold is_applicable. destruct (env_params _ _); [done|].
  destruct (_ !! "voms"); [|done]. by case_decide.
Qed.

(** A request the filter applies to carries its parameters under a key
    other than REMOTE_USER when REMOTE_USER is unset. *)
Lemma is_applicable_params w :
  fst (is_applicable PARAMS_ENV w) = inr true →
  ∃ params, environ w !! PARAMS_ENV = Some (EnvParams params).
Proof.
  unfold is_applicable, env_params.
  destruct (environ w !! PARAMS_ENV) as [[| |params]|] eqn:Hp; simpl;
    first [done | by eauto | by rewrite lookup_empty].
Qed.

Lemma get_user_environ info req w :
  environ (snd (_get_user uuid4_hex CONF self info req w)) = environ w.
Proof.
  rewrite get_user_run, get_user_lookup_run.
  assert (∀ user_ref w1, environ w1 = environ w →
    environ (snd (match fst (_get_project_from_voms self info w) with
                  | inl e => (inl e, w1)
                  | inr tenant =>
                      if truthy req && differs req (project_name tenant)
                      then (inl (Unauthorized None), w1)
                      else
                        match _get_user_provision uuid4_hex CONF user_ref tenant w1 with
                        | (inl e, w2) => (inl e, w2)
                        | (inr _, w2) => (inr (user info, project_name tenant), w2)
                        end
                  end)) = environ w) as Hrest.
  { intros user_ref w1 He.
    destruct (fst (_get_project_from_voms self info w)) as [e|tenant]; [done|].
    destruct (truthy req && differs req (project_name tenant)); [done|].
    pose proof (get_user_provision_frame uuid4_hex CONF user_ref tenant w1)
      as (_ & _ & He').
    simpl in He'. rewrite <- He, <- He'.
    by destruct (_get_user_provision _ _ _ _ w1) as [[e|[]] w2]. }
  destruct (Api.find_user_by_name _ _ _); [by apply Hrest|].
  destruct (autocreate_users CONF); [by apply Hrest|done].
Qed.

(** [_process_request] step by step. *)
Lemma process_request_inner_run w :
  inner w
  = if decide (env_get (environ w) "REMOTE_USER" = EnvNone) then
      match fst (is_applicable PARAMS_ENV w) with
      | inl e => (inl e, w)
      | inr false => (inr SelfApplication, w)
      | inr true =>
          match fst (validate (make_ssl_dict (environ w)) w) with
          | inl e => (inl e, w)
          | inr voms_info =>
              match tenant_from_request PARAMS_ENV (environ w) with
              | inl e => (inl e, w)
              | inr req =>
                  match _get_user uuid4_hex CONF self voms_info req w with
                  | (inl e, w1) => (inl e, w1)
                  | (inr r, w1) =>
                      (inr PyNone,
                       {| backend := backend w1; uuid_drawn := uuid_drawn w1;
                          environ := <["REMOTE_USER" := EnvStr (fst r)]> (environ w1) |})
                  end
              end
          end
      end
    else (inr SelfApplication, w).
Proof.
  unfold inner, _process_request. case_decide; [|done].
  unfold bind at 1. pose proof (is_applicable_run w) as Happ.
  destruct (is_applicable PARAMS_ENV w) as [[e|[]] w0];
    simpl in Happ; injection Happ as ->; simpl; [done| |done].
  unfold bind at 1. fold validate.
  pose proof (get_voms_info_run (make_ssl_dict (environ w)) w) as Hval.
  destruct (validate _ w) as [[e|voms_info] w0];
    simpl in Hval; injection Hval as ->; simpl; [done|].
  destruct (tenant_from_request _ _) as [e|req]; [done|].
  unfold bind at 1.
  by destruct (_get_user _ _ _ _ _ w) as [[e|r] w1].
Qed.

Lemma process_request_run w :
  outer w
  = match inner w with
    | (inl e, w') => (inr (RenderedException e), w')
    | (inr r, w') => (inr r, w')
    end.
Proof. reflexivity. Qed.

(** A request the filter applies to has its [auth] object, so reading the
    requested tenant cannot fail. *)
Lemma is_applicable_tenant_from_request w :
  fst (is_applicable PARAMS_ENV w) = inr true →
  ∃ req, tenant_from_request PARAMS_ENV (environ w) = inr req.
Proof.
  unfold is_applicable, env_params, tenant_from_request.
  destruct (environ w !! PARAMS_ENV) as [[| |params]|]; simpl; try done.
  all: try (by rewrite ?lookup_empty).
  destruct (params !! "auth") as [auth|]; simpl; [eauto|].
  by rewrite lookup_empty.
Qed.

Lemma get_user_result info req w r :
  fst (_get_user uuid4_hex CONF self info req w) = inr r → fst r = user info.
Proof.
  rewrite get_user_run.
  destruct (_get_user_lookup _ _ _ _ w) as [[?|?] ?]; [done|].
  destruct (fst (_get_project_from_voms _ _ w)); [done|].
  destruct (truthy req && differs _ _); [done|].
  destruct (_get_user_provision _ _ _ _ _) as [[?|?] ?]; [done|].
  by intros [= <-].
Qed.

(** C10: what [process_request] does to the request, case by case. A
    request that already has REMOTE_USER, or that the filter does not
    apply to, leaves the whole world as it was. For any other request, if
    validation or [_get_user] fails the environment is unchanged, and if
    both succeed the request ends with REMOTE_USER set to the subject of
    the validated VOMS data and every other key of the environment, the
    request parameters with their tenantName among them, as before. *)
Theorem process_request_environ (w : World) :
  let run := outer w in
  if decide (env_get (environ w) "REMOTE_USER" = EnvNone) then
    match fst (is_applicable PARAMS_ENV w) with
    | inl e => run = (inr (RenderedException e), w)
    | inr false => run = (inr SelfApplication, w)
    | inr true =>
        match fst (validate (make_ssl_dict (environ w)) w) with
        | inl e => run = (inr (RenderedException e), w)
        | inr voms_info =>
            ∃ req,
              tenant_from_request PARAMS_ENV (environ w) = inr req
              ∧ match _get_user uuid4_hex CONF self voms_info req w with
                | (inl e, w1) =>
                    run = (inr (RenderedException e), w1)
                    ∧ environ w1 = environ w
                | (inr _, w1) =>
                    run = (inr PyNone,
                           {| backend := backend w1; uuid_drawn := uuid_drawn w1;
                              environ := <["REMOTE_USER" := EnvStr (user voms_info)]>
                                           (environ w) |})
                    ∧ environ (snd run) !! PARAMS_ENV = environ w !! PARAMS_ENV
                end
        end
    end
  else run = (inr SelfApplication, w).
Proof.
  simpl. rewrite process_request_run, process_request_inner_run.
  case_decide as Hru; [|done].
  pose proof (is_applicable_params w) as Hparams.
  pose proof (is_applicable_tenant_from_request w) as Hreq.
  destruct (fst (is_applicable PARAMS_ENV w)) as [e|[]]; [done| |done].
  destruct (fst (validate _ w)) as [e|voms_info]; [done|].
  destruct (Hreq eq_refl) as [req Hr]. rewrite Hr. exists req. split; [done|].
  pose proof (get_user_environ voms_info req w) as Henv.
  pose proof (get_user_result voms_info req w) as Hres.
  destruct (_get_user _ _ _ _ _ w) as [[e|r] w1]; simpl in *; [done|].
  rewrite (Hres r eq_refl), Henv. split; [done|].
  destruct (Hparams eq_refl) as [params Hp].
  apply lookup_insert_ne. intros <-.
  unfold env_get in Hru. by rewrite Hp in Hru.
Qed.

End ProcessRequest.


(** ** The scenarios of the specification on the source *)

Example scenario_A :
  fst (_get_project_from_voms
         (Fixture.middleware {[ Fixture.dteam_fqan := {[ "tenant" := "dteam-tenant" ]} ]})
         (Fixture.info "dteam" [Fixture.dteam_fqan])
         (Fixture.world [Fixture.tenant "dteam-tenant"] ∅))
  = inr (Fixture.tenant "dteam-tenant").
Proof. by vm_compute. Qed.

Example scenario_B :
  fst (_get_project_from_voms
         (Fixture.middleware {[ "dteam" := {[ "tenant" := "vo-tenant" ]} ]})
         (Fixture.info "dteam" [Fixture.other_fqan])
         (Fixture.world [Fixture.tenant "vo-tenant"] ∅))
  = inr (Fixture.tenant "vo-tenant").
Proof. by vm_compute. Qed.

Example scenario_D :
  _get_user Fixture.uuid4_hex (Fixture.conf false false)
    (Fixture.middleware Fixture.two_entries)
    (Fixture.info "dteam" [Fixture.dteam_fqan]) JNull
    (Fixture.world [Fixture.tenant "dteam-tenant"] ∅)
  = (inl (UserNotFound Fixture.alice),
     Fixture.world [Fixture.tenant "dteam-tenant"] ∅).
Proof. by vm_compute. Qed.

Example scenario_E :
  let w' :=
    snd (_get_user Fixture.uuid4_hex (Fixture.conf true true)
           (Fixture.middleware Fixture.two_entries)
           (Fixture.info "dteam" [Fixture.dteam_fqan]) JNull
           (Fixture.world [Fixture.tenant "dteam-tenant"] ∅)) in
  users (backend w')
  = [ {| user_id := "uuid-0"; user_name := Fixture.alice;
         user_enabled := true; user_domain_id := "default" |} ]
  ∧ roles (backend w') = [ {| role_id := "uuid-1"; role_name := "_member_" |} ]
  ∧ ("uuid-0", "id-dteam-tenant") ∈ memberships (backend w')
  ∧ ("uuid-0", "id-dteam-tenant", "uuid-1") ∈ grants (backend w').
Proof.
  split; [by vm_compute|]. split; [by vm_compute|].
  split; apply (bool_decide_unpack _); by vm_compute.
Qed.

Example voms_login_sets_remote_user :
  let run :=
    process_request SslInfo Fixture.load_cert_chain
      (Fixture.retrieve (inr (Fixture.data "dteam" [Some Fixture.dteam_fqan; None])))
      Fixture.uuid4_hex Fixture.PARAMS_ENV (Fixture.conf true true)
      (Fixture.middleware Fixture.two_entries)
      (Fixture.world [Fixture.tenant "dteam-tenant"]
         (Fixture.voms_request (Some "dteam-tenant"))) in
  fst run = inr PyNone
  ∧ environ (snd run)
    = <["REMOTE_USER" := EnvStr Fixture.alice]>
        (Fixture.voms_request (Some "dteam-tenant")).
Proof. split; by vm_compute. Qed.

Example voms_error_message :
  VomsErr.__init__ 5
  = {| VomsErr.message := "(5, VOMS extension missing)"; VomsErr.code := 400;
       VomsErr.title := "Bad Request" |}.
Proof. reflexivity. Qed.

(** * Further properties of the module *)

(** ** The FQAN parser on arbitrary input *)

Lemma split_pieces_no_char (c sep : ascii) (s : string) :
  Py.contains c s = false →
  Forall (λ x, Py.contains c x = false) (Py.split sep s).
Proof.
  induction s as [|c' s IH]; simpl.
  - intros _. by repeat constructor.
  - intros [Hc Hs]%orb_false_iff. specialize (IH Hs).
    destruct (Ascii.eqb c' sep).
    + by constructor.
    + destruct (Py.split sep s) as [|piece pieces].
      * constructor; [simpl; by rewrite Hc|constructor].
      * apply Forall_cons in IH as [Hp Hps].
        constructor; [|done]. simpl. by rewrite Hc, Hp.
Qed.

Lemma split_pieces_clean (sep : ascii) (s : string) :
  Forall (λ x, Py.contains sep x = false) (Py.split sep s).
Proof.
  induction s as [|c s IH]; simpl; [by repeat constructor|].
  destruct (Ascii.eqb c sep) eqn:Hc.
  - by constructor.
  - destruct (Py.split sep s) as [|piece pieces].
    + constructor; [simpl; by rewrite Hc|constructor].
    + apply Forall_cons in IH as [Hp Hps].
      constructor; [|done]. simpl. by rewrite Hc, Hp.
Qed.

Lemma join_split (sep : ascii) (s : string) :
  Py.join (String sep EmptyString) (Py.split sep s) = s.
Proof.
  induction s as [|c s IH]; [done|]. simpl.
  pose proof (split_nonempty sep s) as Hne.
  destruct (Ascii.eqb_spec c sep) as [->|_].
  - destruct (Py.split sep s) as [|piece pieces]; [done|].
    change (Py.join _ ("" :: piece :: pieces))
      with (String sep (Py.join (String sep "") (piece :: pieces))).
    by rewrite IH.
  - destruct (Py.split sep s) as [|piece [|p2 pieces]]; [done| |].
    + simpl in *. by rewrite IH.
    + change (Py.join _ (String c piece :: p2 :: pieces))
        with (String c (Py.join (String sep "") (piece :: p2 :: pieces))).
      by rewrite IH.
Qed.

Lemma pop_inv {A} (l l' : list A) x : Py.pop l = Some (x, l') → l = (l' ++ [x])%list.
Proof.
  revert l'. induction l as [|y l IH]; intros l'; [done|].
  destruct l as [|z l].
  - by intros [= <- <-].
  - change (Py.pop (y :: z :: l))
      with (match Py.pop (z :: l) with
            | Some (v, r) => Some (v, y :: r) | None => None end).
    destruct (Py.pop (z :: l)) as [[v r]|] eqn:Hp; [|done].
    intros [= <- <-]. by rewrite (IH r eq_refl).
Qed.

Lemma string_app_assoc (a b c : string) :
  ((a ++ b) ++ c)%string = (a ++ b ++ c)%string.
Proof.
  induction a as [|x a IH]; [done|].
  change (String x ((a ++ b) ++ c) = String x (a ++ b ++ c))%string.
  by rewrite IH.
Qed.

Lemma join_snoc (sep : string) (l : list string) x :
  l ≠ [] → Py.join sep (l ++ [x])%list = (Py.join sep l ++ sep ++ x)%string.
Proof.
  induction l as [|y [|z l] IH]; [done| |]; intros _.
  - done.
  - change (Py.join sep ((y :: z :: l) ++ [x])%list)
      with (y ++ sep ++ Py.join sep ((z :: l) ++ [x])%list)%string.
    rewrite IH by done.
    change (Py.join sep (y :: z :: l)) with (y ++ sep ++ Py.join sep (z :: l))%string.
    by rewrite !string_app_assoc.
Qed.

Lemma after_last_eq_clean (c : ascii) (x : string) :
  Py.contains c x = false → Py.contains c (after_last_eq x) = false.
Proof.
  intros Hx. unfold after_last_eq, Py.last_item.
  pose proof (split_pieces_no_char c equals x Hx) as Hall.
  destruct (Py.pop (Py.split equals x)) as [[y l]|] eqn:Hp; [|done].
  apply pop_inv in Hp. rewrite Hp in Hall.
  apply Forall_app in Hall as [_ [Hy _]%Forall_cons]. done.
Qed.

Lemma after_last_eq_no_eq (x : string) :
  Py.contains equals (after_last_eq x) = false.
Proof.
  unfold after_last_eq, Py.last_item.
  pose proof (split_pieces_clean equals x) as Hall.
  destruct (Py.pop (Py.split equals x)) as [[y l]|] eqn:Hp; [|done].
  apply pop_inv in Hp. rewrite Hp in Hall.
  apply Forall_app in Hall as [_ [Hy _]%Forall_cons]. done.
Qed.

(** A successful parse took the last two pieces of the split. *)
Lemma split_fqan_inv (fqan vogroup role capability : string) :
  _split_fqan fqan = inr (vogroup, role, capability) →
  ∃ l a b, Py.split slash fqan = (l ++ [a; b])%list
           ∧ vogroup = Py.join "/" l
           ∧ role = after_last_eq a ∧ capability = after_last_eq b.
Proof.
  unfold _split_fqan.
  destruct (Py.pop (Py.split slash fqan)) as [[b l1]|] eqn:Hp1; [|done].
  destruct (Py.pop l1) as [[a l]|] eqn:Hp2; [|done].
  intros [= <- <- <-]. exists l, a, b.
  apply pop_inv in Hp1, Hp2. rewrite Hp1, Hp2, <- app_assoc. done.
Qed.

(** X1: the parser takes the last two "/"-separated segments whatever they
    contain: the last one gives the capability and the one before it the
    role, each cut after its last "=" or kept whole, and the segments
    before them are the group path. *)
Theorem split_fqan_last_two (groups : list string) (a b : string) :
  Forall (λ g, Py.contains slash g = false) groups →
  Py.contains slash a = false → Py.contains slash b = false →
  _split_fqan (Py.join "/" (groups ++ [a; b])%list)
  = inr (Py.join "/" groups, after_last_eq a, after_last_eq b).
Proof.
  intros Hg Ha Hb. unfold _split_fqan. rewrite (split_join slash).
  - change (groups ++ [a; b])%list with (groups ++ [a] ++ [b])%list.
    by rewrite app_assoc, !pop_snoc.
  - by destruct groups.
  - apply Forall_app. split; [done|]. by repeat constructor.
Qed.

Lemma split_fqan_last_two_witness :
  _split_fqan "/dteam/production/Role=NULL" = inr ("/dteam", "production", "NULL").
Proof.
  apply (split_fqan_last_two [""; "dteam"] "production" "Role=NULL");
    by repeat constructor.
Defined.

(** X2: the role and the capability of a parsed FQAN contain neither "/"
    nor "=". *)
Theorem split_fqan_values_clean (fqan vogroup role capability : string) :
  _split_fqan fqan = inr (vogroup, role, capability) →
  Py.contains slash role = false ∧ Py.contains equals role = false
  ∧ Py.contains slash capability = false
  ∧ Py.contains equals capability = false.
Proof.
  intros (l & a & b & Hsplit & _ & -> & ->)%split_fqan_inv.
  pose proof (split_pieces_clean slash fqan) as Hall. rewrite Hsplit in Hall.
  apply Forall_app in Hall as [_ [Ha [Hb _]%Forall_cons]%Forall_cons].
  repeat split;
    first [by apply after_last_eq_clean | apply after_last_eq_no_eq].
Qed.

Lemma split_fqan_values_clean_witness :
  Py.contains slash "NULL" = false ∧ Py.contains equals "NULL" = false
  ∧ Py.contains slash "x" = false ∧ Py.contains equals "x" = false.
Proof.
  apply (split_fqan_values_clean "/dteam/Role=NULL/Capability=a=x" "/dteam").
  reflexivity.
Defined.

(** X3: a parsed FQAN is its group path, role segment and capability
    segment joined by "/" (without the group path when the string has two
    segments only); the parser drops nothing but what precedes the last "="
    of the two segments. *)
Theorem split_fqan_rebuild (fqan vogroup role capability : string) :
  _split_fqan fqan = inr (vogroup, role, capability) →
  ∃ a b, role = after_last_eq a ∧ capability = after_last_eq b
         ∧ (fqan = (vogroup ++ "/" ++ a ++ "/" ++ b)%string
            ∨ (vogroup = "" ∧ fqan = (a ++ "/" ++ b)%string)).
Proof.
  intros (l & a & b & Hsplit & -> & -> & ->)%split_fqan_inv.
  exists a, b. split; [done|]. split; [done|].
  rewrite <- (join_split slash fqan), Hsplit.
  destruct l as [|g l]; [by right|left].
  replace ((g :: l) ++ [a; b])%list with (((g :: l) ++ [a]) ++ [b])%list
    by (by rewrite <- app_assoc).
  rewrite join_snoc by (by destruct l).
  rewrite join_snoc by done.
  by rewrite !string_app_assoc.
Qed.

Lemma split_fqan_rebuild_witness :
  ∃ a b, "NULL" = after_last_eq a ∧ "NULL" = after_last_eq b
         ∧ ("/dteam/Role=NULL/Capability=NULL"
            = ("/dteam" ++ "/" ++ a ++ "/" ++ b)%string
            ∨ ("/dteam" = "" ∧ "/dteam/Role=NULL/Capability=NULL"
                               = (a ++ "/" ++ b)%string)).
Proof.
  apply (split_fqan_rebuild "/dteam/Role=NULL/Capability=NULL").
  reflexivity.
Defined.

(** X4: the parser does not tell a two-segment string from the same string
    with a leading "/": both give the empty group path. *)
Theorem split_fqan_leading_slash_lost (a b : string) :
  Py.contains slash a = false → Py.contains slash b = false →
  _split_fqan (a ++ "/" ++ b) = inr ("", after_last_eq a, after_last_eq b)
  ∧ _split_fqan ("/" ++ a ++ "/" ++ b) = inr ("", after_last_eq a, after_last_eq b).
Proof.
  intros Ha Hb. unfold _split_fqan. split.
  - change (a ++ "/" ++ b)%string with (a ++ String slash b)%string.
    by rewrite (split_app _ _ _ Ha), (split_no_sep _ _ Hb).
  - change ("/" ++ a ++ "/" ++ b)%string
      with ("" ++ String slash (a ++ String slash b))%string.
    rewrite (split_app slash "" _ eq_refl), (split_app _ _ _ Ha),
      (split_no_sep _ _ Hb). done.
Qed.

Lemma split_fqan_leading_slash_lost_witness :
  _split_fqan "Role=r/Capability=c" = inr ("", "r", "c")
  ∧ _split_fqan "/Role=r/Capability=c" = inr ("", "r", "c").
Proof.
  apply (split_fqan_leading_slash_lost "Role=r" "Capability=c"); reflexivity.
Defined.

(** ** Validation and applicability *)

Lemma collect_fqans_prefix (l : list string) (tail : list (option string)) :
  tail = [] ∨ (∃ junk, tail = None :: junk) →
  collect_fqans ((Some <$> l) ++ tail) = l.
Proof.
  intros Htail. induction l as [|x l IH].
  - by destruct Htail as [->|[junk ->]].
  - change (x :: collect_fqans ((Some <$> l) ++ tail) = x :: l).
    by rewrite IH.
Qed.

Section Validation.

Variable CertChain : Type.
Variable load_cert_chain : SslInfo → option CertChain.
Variable voms_retrieve : bool → CertChain → Z + VomsData.
Variable PARAMS_ENV : string.
Variable self : Middleware.

(** X5: the FQANs of the VOMS data are the entries of the native array up
    to its first NULL, in order (all of them when there is no NULL), the
    subject and VO name are copied and the validity window is read from
    [date1] and [date2]; the world is not touched. *)
Theorem get_voms_info_fqans ssl_info certs voms_data l tail w :
  load_cert_chain ssl_info = Some certs →
  voms_retrieve (_no_verify self) certs = inr voms_data →
  vd_fqan voms_data = ((Some <$> l) ++ tail)%list →
  tail = [] ∨ (∃ junk, tail = None :: junk) →
  ∃ info,
    _get_voms_info CertChain load_cert_chain voms_retrieve self ssl_info w
    = (inr info, w)
    ∧ fqans info = l ∧ user info = vd_user voms_data
    ∧ voname info = vd_voname voms_data
    ∧ not_before info = vd_date1 voms_data
    ∧ not_after info = vd_date2 voms_data.
Proof.
  intros Hload Hret Hfqan Htail. unfold _get_voms_info.
  rewrite Hload, Hret. eexists. split; [done|]. simpl.
  rewrite Hfqan. by rewrite collect_fqans_prefix.
Qed.

(** X6: the filter applies to a request exactly when the request
    parameters hold an [auth] object whose [voms] field is the JSON value
    true. *)
Theorem is_applicable_true_iff (w : World) :
  is_applicable PARAMS_ENV w = (inr true, w)
  ↔ ∃ params auth, environ w !! PARAMS_ENV = Some (EnvParams params)
                   ∧ params !! "auth" = Some auth
                   ∧ auth !! "voms" = Some (JBool true).
Proof.
  unfold is_applicable, env_params. split.
  - destruct (environ w !! PARAMS_ENV) as [[| |params]|]; simpl; try done.
    all: try (by rewrite ?lookup_empty).
    destruct (params !! "auth") as [auth|] eqn:Hauth; simpl;
      [|by rewrite lookup_empty].
    destruct (auth !! "voms") as [v|] eqn:Hv; [|done].
    case_decide as Hd; [|done]. subst v. eauto.
  - intros (params & auth & -> & Hauth & Hv). rewrite Hauth. simpl.
    rewrite Hv. by case_decide.
Qed.

(** X7: a [voms] field with any value other than the JSON true (false,
    null, a number, a string) is refused with ValidationError, and the
    world is not touched. *)
Theorem is_applicable_rejects (w : World) params auth v :
  environ w !! PARAMS_ENV = Some (EnvParams params) →
  params !! "auth" = Some auth →
  auth !! "voms" = Some v →
  v ≠ JBool true →
  is_applicable PARAMS_ENV w
  = (inl (ValidationError "Error in JSON, 'voms' must be set to true"), w).
Proof.
  intros Hp Hauth Hv Hne. unfold is_applicable, env_params.
  rewrite Hp, Hauth. simpl. rewrite Hv. by case_decide.
Qed.

End Validation.

Lemma get_voms_info_fqans_witness :
  ∃ info,
    _get_voms_info SslInfo Fixture.load_cert_chain
      (Fixture.retrieve
         (inr (Fixture.data "dteam"
                 [Some Fixture.dteam_fqan; None; Some Fixture.other_fqan])))
      (Fixture.middleware ∅) (make_ssl_dict ∅) (Fixture.world [] ∅)
    = (inr info, Fixture.world [] ∅)
    ∧ fqans info = [Fixture.dteam_fqan] ∧ user info = Fixture.alice
    ∧ voname info = "dteam"
    ∧ not_before info = "20120101000000Z"
    ∧ not_after info = "20120102000000Z".
Proof.
  apply (get_voms_info_fqans SslInfo Fixture.load_cert_chain
           (Fixture.retrieve
              (inr (Fixture.data "dteam"
                      [Some Fixture.dteam_fqan; None; Some Fixture.other_fqan])))
           (Fixture.middleware ∅) (make_ssl_dict ∅) (make_ssl_dict ∅)
           (Fixture.data "dteam"
              [Some Fixture.dteam_fqan; None; Some Fixture.other_fqan])
           [Fixture.dteam_fqan] [None; Some Fixture.other_fqan]);
    [reflexivity | reflexivity | reflexivity |].
  right. by exists [Some Fixture.other_fqan].
Defined.

Lemma is_applicable_rejects_witness :
  is_applicable Fixture.PARAMS_ENV
    (Fixture.world []
       {[ Fixture.PARAMS_ENV := EnvParams {[ "auth" := {[ "voms" := JInt 1 ]} ]} ]})
  = (inl (ValidationError "Error in JSON, 'voms' must be set to true"),
     Fixture.world []
       {[ Fixture.PARAMS_ENV := EnvParams {[ "auth" := {[ "voms" := JInt 1 ]} ]} ]}).
Proof.
  apply (is_applicable_rejects Fixture.PARAMS_ENV _
           {[ "auth" := {[ "voms" := JInt 1 ]} ]} {[ "voms" := JInt 1 ]} (JInt 1));
    [by vm_compute | by vm_compute | by vm_compute | discriminate].
Defined.

(** ** Tenant resolution on the source *)

Lemma get_project_from_voms_select self info w :
  _get_project_from_voms self info w
  = match select_voinfo self info with
    | inl e => (inl e, w)
    | inr voinfo => (tenant_by_name self (entry_tenant voinfo) w, w)
    end.
Proof.
  unfold _get_project_from_voms, tenant_by_name, entry_tenant.
  destruct (select_voinfo self info) as [e|voinfo]; [done|].
  unfold bind, Api.get_project_by_name, bind, get_backend, ret. simpl.
  by destruct (Api.find_project_by_name _ _ _).
Qed.


(** X8: when the first FQAN is a key of the table with an entry that is
    not empty, the tenant is the one that entry names, whatever the later
    FQANs and the VO name map to; the project is looked up by that name in
    the configured domain. *)
Theorem resolution_first_fqan_wins self info fqan rest entry w :
  fqans info = fqan :: rest →
  voms_json self !! fqan = Some entry → entry ≠ ∅ →
  _get_project_from_voms self info w
  = (tenant_by_name self (entry_tenant entry) w, w).
Proof.
  intros Hf He Hne.
  rewrite get_project_from_voms_select, (select_voinfo_nonempty _ _ _ _ Hf), He.
  by case_decide.
Qed.

Lemma resolution_first_fqan_wins_witness :
  _get_project_from_voms (Fixture.middleware Fixture.two_entries)
    (Fixture.info "dteam" [Fixture.dteam_fqan; Fixture.other_fqan])
    (Fixture.world [Fixture.tenant "vo-tenant"; Fixture.tenant "dteam-tenant"] ∅)
  = (inr (Fixture.tenant "dteam-tenant"),
     Fixture.world [Fixture.tenant "vo-tenant"; Fixture.tenant "dteam-tenant"] ∅).
Proof.
  etrans.
  - apply (resolution_first_fqan_wins (Fixture.middleware Fixture.two_entries)
             (Fixture.info "dteam" [Fixture.dteam_fqan; Fixture.other_fqan])
             Fixture.dteam_fqan [Fixture.other_fqan]
             {[ "tenant" := "dteam-tenant" ]});
      [reflexivity | by vm_compute |].
    intros H. by apply (f_equal (λ m : gmap string string, m !! "tenant")) in H.
  - by vm_compute.
Defined.

(** X9: resolution reads the first FQAN only: two sets of VOMS data with
    the same VO name and the same first FQAN resolve alike, whatever
    follows the first FQAN. *)
Theorem resolution_first_fqan_only self info1 info2 fqan rest1 rest2 w :
  fqans info1 = fqan :: rest1 → fqans info2 = fqan :: rest2 →
  voname info1 = voname info2 →
  _get_project_from_voms self info1 w = _get_project_from_voms self info2 w.
Proof.
  intros H1 H2 Hvo. rewrite !get_project_from_voms_select.
  by rewrite (select_voinfo_nonempty _ _ _ _ H1),
    (select_voinfo_nonempty _ _ _ _ H2), Hvo.
Qed.

Lemma resolution_first_fqan_only_witness :
  _get_project_from_voms (Fixture.middleware Fixture.two_entries)
    (Fixture.info "dteam" [Fixture.other_fqan; Fixture.dteam_fqan])
    (Fixture.world [Fixture.tenant "vo-tenant"] ∅)
  = _get_project_from_voms (Fixture.middleware Fixture.two_entries)
      (Fixture.info "dteam" [Fixture.other_fqan])
      (Fixture.world [Fixture.tenant "vo-tenant"] ∅).
Proof.
  apply (resolution_first_fqan_only (Fixture.middleware Fixture.two_entries)
           (Fixture.info "dteam" [Fixture.other_fqan; Fixture.dteam_fqan])
           (Fixture.info "dteam" [Fixture.other_fqan])
           Fixture.other_fqan [Fixture.dteam_fqan] []); reflexivity.
Defined.



(** X11: resolution only reads: the world is the same afterwards, and it
    can fail in two ways only, with UnboundLocalError exactly when the
    FQAN sequence is empty and with Unauthorized ("Your VO is not
    authorized") otherwise. *)
Theorem resolution_outcomes self info w :
  snd (_get_project_from_voms self info w) = w
  ∧ match fst (_get_project_from_voms self info w) with
    | inl e =>
        if decide (fqans info = []) then e = UnboundLocalError "voinfo"
        else e = Unauthorized (Some "Your VO is not authorized")
    | inr _ => fqans info ≠ []
    end.
Proof.
  rewrite get_project_from_voms_select.
  destruct (fqans info) as [|fqan rest] eqn:Hf.
  - unfold select_voinfo. by rewrite Hf.
  - rewrite (select_voinfo_nonempty _ _ _ _ Hf). simpl. split; [done|].
    unfold tenant_by_name. by destruct (Api.find_project_by_name _ _ _).
Qed.

(** X12: when the first FQAN is no key of the table, or its entry is the
    empty object, the entry of the VO name decides; a VO name that is no
    key either leads to the lookup of the project with the empty name. *)
Theorem resolution_falls_back_to_vo self info fqan rest w :
  fqans info = fqan :: rest →
  voms_json self !! fqan = None ∨ voms_json self !! fqan = Some ∅ →
  _get_project_from_voms self info w
  = (tenant_by_name self
       (entry_tenant (default ∅ (voms_json self !! voname info))) w, w).
Proof.
  intros Hf Hfq.
  rewrite get_project_from_voms_select, (select_voinfo_nonempty _ _ _ _ Hf).
  destruct Hfq as [->| ->]; [done|]. by case_decide.
Qed.

Lemma resolution_falls_back_to_vo_witness :
  _get_project_from_voms
    (Fixture.middleware (<[Fixture.other_fqan := ∅]> Fixture.two_entries))
    (Fixture.info "dteam" [Fixture.other_fqan; Fixture.dteam_fqan])
    (Fixture.world [Fixture.tenant "vo-tenant"] ∅)
  = (inr (Fixture.tenant "vo-tenant"),
     Fixture.world [Fixture.tenant "vo-tenant"] ∅).
Proof.
  etrans.
  - apply (resolution_falls_back_to_vo
             (Fixture.middleware (<[Fixture.other_fqan := ∅]> Fixture.two_entries))
             (Fixture.info "dteam" [Fixture.other_fqan; Fixture.dteam_fqan])
             Fixture.other_fqan [Fixture.dteam_fqan]); [reflexivity|].
    right. by vm_compute.
  - by vm_compute.
Defined.

(** ** Creating users and roles *)

Lemma find_split {A} (P : A → bool) (l : list A) :
  match find P l with
  | Some x => ∃ pre post, l = (pre ++ x :: post)%list ∧ P x = true
                          ∧ Forall (λ y, P y = false) pre
  | None => Forall (λ y, P y = false) l
  end.
Proof.
  induction l as [|y l IH]; simpl; [constructor|].
  destruct (P y) eqn:HP.
  - exists [], l. by repeat split.
  - destruct (find P l) as [x|].
    + destruct IH as (pre & post & -> & Hx & Hpre).
      exists (y :: pre), post. repeat split; [done|]. by constructor.
    + by constructor.
Qed.

(** X13: [_create_user] returns an enabled user named after the DN in the
    configured domain, draws one identifier, and only appends: every
    lookup by name that succeeded before gives the same user afterwards,
    and the new user is the answer exactly for its own name and domain
    when no user had them. *)
Theorem create_user_lookup (uuid4_hex : nat → string) (self : Middleware)
  (user_dn : string) (w : World) :
  let run := _create_user uuid4_hex self user_dn w in
  fst run = inr {| user_id := uuid4_hex (uuid_drawn w); user_name := user_dn;
                   user_enabled := true; user_domain_id := domain self |}
  ∧ uuid_drawn (snd run) = S (uuid_drawn w)
  ∧ ∀ name dom,
      Api.find_user_by_name name dom (backend (snd run))
      = match Api.find_user_by_name name dom (backend w) with
        | Some u => Some u
        | None =>
            if bool_decide (user_dn = name ∧ domain self = dom)
            then Some (new_user uuid4_hex self user_dn w)
            else None
        end.
Proof.
  simpl. split; [done|]. split; [done|]. intros name dom.
  unfold Api.find_user_by_name. simpl.
  destruct (find _ (users (backend w))) as [u|] eqn:Hfind.
  - by apply find_app_Some.
  - rewrite find_app_None by done. simpl. by case_bool_decide.
Qed.

(** X14: [_search_role] returns the first role of the listing that has the
    name, and None only when no role has it; it only reads. *)
Theorem search_role_first (r_name : string) (w : World) :
  snd (_search_role r_name w) = w
  ∧ match fst (_search_role r_name w) with
    | inr (Some role) =>
        ∃ pre post, roles (backend w) = (pre ++ role :: post)%list
                    ∧ role_name role = r_name
                    ∧ Forall (λ r, role_name r ≠ r_name) pre
    | inr None => Forall (λ r, role_name r ≠ r_name) (roles (backend w))
    | inl _ => False
    end.
Proof.
  split; [done|]. unfold _search_role, Api.list_roles, bind, get_backend, ret.
  simpl.
  pose proof (find_split (λ role, String.eqb (role_name role) r_name)
                (roles (backend w))) as Hfind.
  destruct (find _ _) as [role|].
  - destruct Hfind as (pre & post & Heq & Hrole%String.eqb_eq & Hpre).
    exists pre, post. repeat split; [done..|].
    eapply Forall_impl; [exact Hpre|]. by intros r ?%String.eqb_neq.
  - eapply Forall_impl; [exact Hfind|]. by intros r ?%String.eqb_neq.
Qed.

Section RolePostconditions.

Variable uuid4_hex : nat → string.
Variable CONF : Conf.
Variables uid tid : string.

Let body := _update_user_roles_body uuid4_hex uid tid.


Lemma granted_by_name_holds r_name w :
  granted_by_name uid tid r_name w → holds_role uid tid r_name w.
Proof.
  intros (role & [Hin Hname%String.eqb_eq]%find_some_elem & Hgrant).
  by exists role.
Qed.

Lemma holds_role_grows r_name w w' :
  grows w w' → holds_role uid tid r_name w → holds_role uid tid r_name w'.
Proof.
  intros (_ & _ & _ & _ & [extra Hr] & Hsub) (role & Hin & Hname & Hgrant).
  exists role. rewrite Hr. repeat split; [|done|by apply Hsub].
  apply elem_of_app. by left.
Qed.

Lemma update_user_roles_holds (w : World) :
  fst (_update_user_roles uuid4_hex CONF uid tid w) = inr tt →
  Forall (λ r_name,
            holds_role uid tid r_name
              (snd (_update_user_roles uuid4_hex CONF uid tid w)))
         (user_roles CONF).
Proof.
  rewrite update_user_roles_run.
  destruct (role_names_cases (granted_ids uid tid w) w)
    as [(N & HN & HF)|(e & He & _)]; [|by rewrite He].
  rewrite HN.
  destruct (update_loop_run uuid4_hex uid tid N (user_roles CONF) w)
    as (w' & -> & Hgrow & _ & Hall). simpl. intros _.
  eapply Forall_impl; [exact Hall|]. intros r_name [Hin|Hgr].
  - apply (holds_role_grows r_name w w' Hgrow).
    apply list_elem_of_lookup in Hin as [j Hj].
    destruct (Forall2_lookup_r _ _ _ _ _ HF Hj)
      as (rid & Hrid & role & Hrole & Hname).
    exists role. unfold Api.find_role in Hrole.
    apply find_some_elem in Hrole as [Hin Hid%bool_decide_eq_true_1].
    repeat split; [done..|]. rewrite Hid.
    apply elem_of_granted_ids, list_elem_of_lookup. eauto.
  - by apply granted_by_name_holds.
Qed.


(** What the loop creates, for any list of names and any names already
    held. *)
Lemma update_loop_creates N (l : list string) w :
  ∃ created : list Role,
    roles (backend (snd (for_each l (body N) w)))
    = (roles (backend w) ++ created)%list
    ∧ uuid_drawn (snd (for_each l (body N) w))
      = (uuid_drawn w + length created)%nat
    ∧ role_id <$> created
      = uuid4_hex <$> seq (uuid_drawn w) (length created)
    ∧ NoDup (role_name <$> created)
    ∧ Forall (λ r, role_name r ∈ l ∧ role_by_name (role_name r) w = None) created.
Proof.
  revert w. induction l as [|r_name l IH]; intros w.
  - exists []. simpl. rewrite app_nil_r, Nat.add_0_r.
    repeat split; constructor.
  - simpl. unfold bind. fold body.
    pose proof (update_body_run uuid4_hex uid tid N r_name w) as Hrun.
    fold body in Hrun.
    destruct (body N r_name w) as [[e|[]] w1] eqn:Hb.
    { pose proof (update_body_ok uuid4_hex uid tid N r_name w) as Hok.
      fold body in Hok. by rewrite Hb in Hok. }
    destruct (IH w1) as (created & Hroles & Huuid & Hids & Hnd & Hall).
    case_bool_decide as HinN.
    + injection Hrun as <-. exists created.
      repeat split; [done..|].
      eapply Forall_impl; [exact Hall|]. intros r [? ?]. split; [by right|done].
    + destruct (role_by_name r_name w) as [role|] eqn:Hfind.
      * injection Hrun as ->. exists created.
        repeat split; [done..|].
        eapply Forall_impl; [exact Hall|]. intros r [? ?]. split; [by right|done].
      * simpl in Hrun. injection Hrun as ->. simpl in *.
        set (new := {| role_id := uuid4_hex (uuid_drawn w); role_name := r_name |}) in *.
        exists (new :: created). rewrite Hroles, Huuid, <- app_assoc. simpl.
        split; [done|]. split; [lia|]. split; [f_equal; exact Hids|].
        assert (Forall (λ r, role_name r ≠ r_name
                             ∧ role_by_name (role_name r) w = None) created)
          as Hfresh.
        { eapply Forall_impl; [exact Hall|]. intros r [_ Hnone].
          unfold role_by_name in Hnone |- *. simpl in Hnone.
          destruct (find (λ role, String.eqb (role_name role) (role_name r))
                      (roles (backend w))) eqn:Hold.
          { by rewrite (find_app_Some _ _ _ _ Hold) in Hnone. }
          split; [|done]. rewrite find_app_None in Hnone by done.
          simpl in Hnone. intros Heq. by rewrite Heq, String.eqb_refl in Hnone. }
        split.
        { constructor; [|done]. rewrite list_elem_of_fmap.
          intros (r & Hname & Hr).
          by destruct (proj1 (Forall_forall _ _) Hfresh r Hr) as [Hne _]. }
        constructor; [split; [by left|done]|].
        apply Forall_forall. intros r Hr.
        destruct (proj1 (Forall_forall _ _) Hall r Hr) as [Hin _].
        destruct (proj1 (Forall_forall _ _) Hfresh r Hr) as [_ Hnone].
        split; [by right|done].
Qed.

(** X16: [_update_user_roles] only appends roles and adds grants. The
    roles it creates have pairwise different names, each a configured
    name that no role had before; it draws exactly one identifier for
    each, in order; users, projects, memberships and the environment stay
    as they were and no grant is removed. *)
Theorem update_user_roles_creates (w : World) :
  let w' := snd (_update_user_roles uuid4_hex CONF uid tid w) in
  grows w w'
  ∧ ∃ created : list Role,
      roles (backend w') = (roles (backend w) ++ created)%list
      ∧ uuid_drawn w' = (uuid_drawn w + length created)%nat
      ∧ role_id <$> created = uuid4_hex <$> seq (uuid_drawn w) (length created)
      ∧ NoDup (role_name <$> created)
      ∧ Forall (λ r, role_name r ∈ user_roles CONF
                     ∧ role_by_name (role_name r) w = None) created.
Proof.
  simpl. split; [apply update_user_roles_grows|].
  rewrite update_user_roles_run.
  destruct (role_names_cases (granted_ids uid tid w) w)
    as [(N & -> & _)|(e & -> & _)].
  - apply update_loop_creates.
  - exists []. simpl. rewrite app_nil_r, Nat.add_0_r. repeat split; constructor.
Qed.

End RolePostconditions.

(** ** What [_get_user] does to the world *)

Lemma only_adds_refl w : only_adds w w.
Proof.
  repeat split; try done; try (exists []; by rewrite app_nil_r).
Qed.

Lemma only_adds_trans w1 w2 w3 : only_adds w1 w2 → only_adds w2 w3 → only_adds w1 w3.
Proof.
  intros ([x Hu] & [y Hr] & Hp & Hm & Hg & Hn & He)
         ([x' Hu'] & [y' Hr'] & Hp' & Hm' & Hg' & Hn' & He').
  split; [exists (x ++ x')%list; by rewrite Hu', Hu, app_assoc|].
  split; [exists (y ++ y')%list; by rewrite Hr', Hr, app_assoc|].
  repeat split; [congruence|by etrans|by etrans|lia|congruence].
Qed.

Lemma grows_only_adds w w' :
  grows w w' → (uuid_drawn w ≤ uuid_drawn w')%nat → only_adds w w'.
Proof.
  intros (Hu & Hp & Hm & He & Hr & Hg) Hn.
  split; [exists []; by rewrite app_nil_r|].
  repeat split; try done. by rewrite Hm.
Qed.


Section GetUserWorld.

Variable uuid4_hex : nat → string.
Variable CONF : Conf.
Variable self : Middleware.

Lemma update_user_roles_uuid uid tid w :
  let w' := snd (_update_user_roles uuid4_hex CONF uid tid w) in
  (uuid_drawn w ≤ uuid_drawn w' ≤ uuid_drawn w + length (user_roles CONF))%nat.
Proof.
  simpl. rewrite update_user_roles_run.
  destruct (role_names_cases (granted_ids uid tid w) w)
    as [(N & -> & _)|(e & -> & _)]; [|simpl; lia].
  destruct (update_loop_creates uuid4_hex uid tid N (user_roles CONF) w)
    as (created & _ & -> & _ & Hnd & Hall).
  assert (length created ≤ length (user_roles CONF))%nat; [|lia].
  rewrite <- (length_fmap role_name created).
  apply submseteq_length, NoDup_submseteq; [done|].
  intros name (r & -> & Hr)%list_elem_of_fmap.
  by destruct (proj1 (Forall_forall _ _) Hall r Hr).
Qed.

Lemma get_user_provision_only_adds user_ref tenant w :
  let w' := snd (_get_user_provision uuid4_hex CONF user_ref tenant w) in
  only_adds w w'
  ∧ (uuid_drawn w' ≤ uuid_drawn w + length (user_roles CONF))%nat.
Proof.
  simpl. rewrite get_user_provision_run.
  destruct (autocreate_users CONF); [|split; [apply only_adds_refl|simpl; lia]].
  destruct (membership_step_run user_ref tenant w) as (w1 & -> & Hw1 & _).
  assert (only_adds w w1 ∧ uuid_drawn w1 = uuid_drawn w) as [Hadd Hn].
  { destruct Hw1 as [->| ->]; [split; [apply only_adds_refl|done]|].
    split; [|done]. split; [exists []; by rewrite app_nil_r|].
    split; [exists []; by rewrite app_nil_r|].
    repeat split; try done. simpl. apply union_subseteq_r. }
  destruct (add_roles CONF); [|split; [done|simpl; lia]].
  pose proof (update_user_roles_uuid (user_id user_ref) (project_id tenant) w1)
    as Huuid. simpl in Huuid.
  split; [|lia]. eapply only_adds_trans; [exact Hadd|].
  apply grows_only_adds; [apply update_user_roles_grows|lia].
Qed.

Lemma get_user_lookup_only_adds user_dn w :
  let w1 := snd (_get_user_lookup uuid4_hex CONF self user_dn w) in
  only_adds w w1
  ∧ (length (users (backend w1)) ≤ S (length (users (backend w))))%nat
  ∧ (uuid_drawn w1 ≤ S (uuid_drawn w))%nat.
Proof.
  simpl. rewrite get_user_lookup_run.
  destruct (Api.find_user_by_name _ _ _);
    [split; [apply only_adds_refl|simpl; lia]|].
  destruct (autocreate_users CONF);
    [|split; [apply only_adds_refl|simpl; lia]].
  simpl. split; [|rewrite length_app; simpl; lia].
  split; [by eexists|]. split; [exists []; by rewrite app_nil_r|].
  repeat split; try done. simpl. lia.
Qed.

(** When [autocreate_users] is off, [_get_user] leaves the world as it
    found it. *)
Lemma get_user_readonly info req w :
  autocreate_users CONF = false →
  snd (_get_user uuid4_hex CONF self info req w) = w.
Proof.
  intros Hauto. rewrite get_user_run, get_user_lookup_run, Hauto.
  destruct (Api.find_user_by_name _ _ _); [|done].
  destruct (fst (_get_project_from_voms self info w)); [done|].
  destruct (truthy req && differs req _); [done|].
  by rewrite get_user_provision_run, Hauto.
Qed.

(** X17: with [autocreate_users] off, the options [add_roles] and
    [user_roles] have no effect on [_get_user]: result and world are the
    same for every setting of them. *)
Theorem get_user_ignores_role_options (CONF' : Conf) info req w :
  autocreate_users CONF = false → autocreate_users CONF' = false →
  _get_user uuid4_hex CONF self info req w
  = _get_user uuid4_hex CONF' self info req w.
Proof.
  intros Hauto Hauto'.
  rewrite !get_user_run, !get_user_lookup_run, Hauto, Hauto'.
  destruct (Api.find_user_by_name _ _ _); [|done].
  destruct (fst (_get_project_from_voms self info w)); [done|].
  destruct (truthy req && differs req _); [done|].
  by rewrite !get_user_provision_run, Hauto, Hauto'.
Qed.

(** X18: a successful [_get_user] returns the subject DN and the name of
    the resolved tenant; the principal is then in the backend under that
    DN, a requested tenant name that is not empty is the resolved one,
    and with [autocreate_users] on the principal is a member of the tenant
    and, with [add_roles] on as well, holds a role of every configured
    name; with [autocreate_users] off nothing was changed. *)
Theorem get_user_success info req w r :
  fst (_get_user uuid4_hex CONF self info req w) = inr r →
  let w' := snd (_get_user uuid4_hex CONF self info req w) in
  ∃ u tenant,
    fst (_get_project_from_voms self info w) = inr tenant
    ∧ r = (user info, project_name tenant)
    ∧ Api.find_user_by_name (user info) (domain self) (backend w') = Some u
    ∧ (if truthy req then req = JStr (project_name tenant) else True)
    ∧ (if autocreate_users CONF
       then (user_id u, project_id tenant) ∈ memberships (backend w')
            ∧ (if add_roles CONF
               then Forall (λ r_name, holds_role (user_id u) (project_id tenant)
                                        r_name w') (user_roles CONF)
               else True)
       else w' = w).
Proof.
  simpl. rewrite get_user_run.
  destruct (_get_user_lookup uuid4_hex CONF self (user info) w)
    as [[e|user_ref] w1] eqn:Hlook; [done|].
  destruct (fst (_get_project_from_voms self info w)) as [e|tenant]; [done|].
  destruct (truthy req && differs req (project_name tenant)) eqn:Hreq; [done|].
  pose proof (get_user_provision_frame uuid4_hex CONF user_ref tenant w1)
    as (Hu & _).
  pose proof (get_user_provision_run uuid4_hex CONF user_ref tenant w1) as Hprov.
  destruct (_get_user_provision uuid4_hex CONF user_ref tenant w1)
    as [[e|[]] w2]; [done|]. simpl in *. intros [= <-].
  exists user_ref, tenant. split; [done|]. split; [done|].
  split.
  { pose proof Hlook as Hlook'. rewrite get_user_lookup_run in Hlook'.
    unfold Api.find_user_by_name at 1. rewrite Hu.
    fold (Api.find_user_by_name (user info) (domain self) (backend w1)).
    destruct (Api.find_user_by_name (user info) (domain self) (backend w))
      eqn:Hfind.
    - by injection Hlook' as <- <-.
    - destruct (autocreate_users CONF); [|done].
      injection Hlook' as <- <-. by apply find_user_created. }
  split.
  { destruct req as [|b|n|s]; simpl in *; try done.
    - by destruct b.
    - by destruct (n =? 0).
    - destruct (String.eqb_spec s ""); [done|]. simpl in Hreq.
      destruct (String.eqb_spec s (project_name tenant)); [by subst|done]. }
  destruct (autocreate_users CONF) eqn:Hauto.
  2: { injection Hprov as <-. rewrite get_user_lookup_run, Hauto in Hlook.
       destruct (Api.find_user_by_name _ _ _); [|done]. by injection Hlook as _ ->. }
  destruct (membership_step_run user_ref tenant w1) as (wm & Hm & _ & Hin).
  rewrite Hm in Hprov. destruct (add_roles CONF).
  - pose proof (update_user_roles_grows uuid4_hex CONF (user_id user_ref)
                  (project_id tenant) wm) as (_ & _ & Hmem & _).
    pose proof (update_user_roles_holds uuid4_hex CONF (user_id user_ref)
                  (project_id tenant) wm) as Hholds.
    rewrite <- Hprov in *. simpl in *. split; [by rewrite Hmem|].
    by apply Hholds.
  - by injection Hprov as <-.
Qed.

(** X19: [_get_user] never removes or alters anything: it appends at most
    one user, only appends roles, only adds memberships and grants, keeps
    projects and environment, and draws at most one identifier for the
    user and one for each configured role name. *)
Theorem get_user_only_adds info req w :
  let w' := snd (_get_user uuid4_hex CONF self info req w) in
  only_adds w w'
  ∧ (length (users (backend w')) ≤ S (length (users (backend w))))%nat
  ∧ (uuid_drawn w' ≤ uuid_drawn w + 1 + length (user_roles CONF))%nat.
Proof.
  simpl. rewrite get_user_run.
  pose proof (get_user_lookup_only_adds (user info) w) as (Hadd & Hlen & Hn).
  destruct (_get_user_lookup uuid4_hex CONF self (user info) w)
    as [[e|user_ref] w1]; simpl in *; [split; [done|lia]|].
  destruct (fst (_get_project_from_voms self info w)) as [e|tenant];
    [simpl; split; [done|lia]|].
  destruct (truthy req && differs req (project_name tenant));
    [simpl; split; [done|lia]|].
  pose proof (get_user_provision_only_adds user_ref tenant w1) as (Hadd' & Hn').
  pose proof (get_user_provision_frame uuid4_hex CONF user_ref tenant w1)
    as (Hu & _).
  assert (∀ w2, w2 = snd (_get_user_provision uuid4_hex CONF user_ref tenant w1) →
            only_adds w w2
            ∧ (length (users (backend w2)) ≤ S (length (users (backend w))))%nat
            ∧ (uuid_drawn w2 ≤ uuid_drawn w + 1 + length (user_roles CONF))%nat)
    as Hfinal.
  { intros w2 ->. simpl in *. split; [by eapply only_adds_trans|].
    rewrite Hu. lia. }
  destruct (_get_user_provision uuid4_hex CONF user_ref tenant w1)
    as [[e|[]] w2]; by apply Hfinal.
Qed.

(** X20: the requested tenant matters through the mismatch test alone: a
    request whose tenant name is empty (or is no string and false), or is
    the resolved tenant's name, is handled as one without a requested
    tenant. *)
Theorem get_user_requested_tenant_neutral info req w :
  (∀ tenant, fst (_get_project_from_voms self info w) = inr tenant →
             truthy req && differs req (project_name tenant) = false) →
  _get_user uuid4_hex CONF self info req w
  = _get_user uuid4_hex CONF self info JNull w.
Proof.
  intros Hreq. rewrite !get_user_run.
  destruct (_get_user_lookup uuid4_hex CONF self (user info) w)
    as [[e|user_ref] w1]; [done|].
  destruct (fst (_get_project_from_voms self info w)) as [e|tenant]; [done|].
  by rewrite (Hreq tenant eq_refl).
Qed.


End GetUserWorld.

Lemma get_user_ignores_role_options_witness :
  _get_user Fixture.uuid4_hex (Fixture.conf false true)
    (Fixture.middleware Fixture.two_entries)
    (Fixture.info "dteam" [Fixture.dteam_fqan]) JNull
    (Fixture.world_with_alice [Fixture.tenant "dteam-tenant"] ∅)
  = _get_user Fixture.uuid4_hex (Fixture.conf false false)
      (Fixture.middleware Fixture.two_entries)
      (Fixture.info "dteam" [Fixture.dteam_fqan]) JNull
      (Fixture.world_with_alice [Fixture.tenant "dteam-tenant"] ∅)
  ∧ _get_user Fixture.uuid4_hex (Fixture.conf false true)
      (Fixture.middleware Fixture.two_entries)
      (Fixture.info "dteam" [Fixture.dteam_fqan]) JNull
      (Fixture.world_with_alice [Fixture.tenant "dteam-tenant"] ∅)
    = (inr (Fixture.alice, "dteam-tenant"),
       Fixture.world_with_alice [Fixture.tenant "dteam-tenant"] ∅).
Proof.
  split; [|by vm_compute].
  apply (get_user_ignores_role_options Fixture.uuid4_hex (Fixture.conf false true)
           (Fixture.middleware Fixture.two_entries) (Fixture.conf false false));
    reflexivity.
Defined.

Lemma get_user_success_witness :
  let run :=
    _get_user Fixture.uuid4_hex (Fixture.conf true true)
      (Fixture.middleware Fixture.two_entries)
      (Fixture.info "dteam" [Fixture.dteam_fqan]) (JStr "dteam-tenant")
      (Fixture.world [Fixture.tenant "dteam-tenant"] ∅) in
  ∃ u tenant,
    fst (_get_project_from_voms (Fixture.middleware Fixture.two_entries)
           (Fixture.info "dteam" [Fixture.dteam_fqan])
           (Fixture.world [Fixture.tenant "dteam-tenant"] ∅)) = inr tenant
    ∧ (Fixture.alice, "dteam-tenant") = (Fixture.alice, project_name tenant)
    ∧ Api.find_user_by_name Fixture.alice "default" (backend (snd run)) = Some u
    ∧ JStr "dteam-tenant" = JStr (project_name tenant)
    ∧ (user_id u, project_id tenant) ∈ memberships (backend (snd run))
    ∧ Forall (λ r_name, holds_role (user_id u) (project_id tenant) r_name (snd run))
        ["_member_"].
Proof.
  apply (get_user_success Fixture.uuid4_hex (Fixture.conf true true)
           (Fixture.middleware Fixture.two_entries)
           (Fixture.info "dteam" [Fixture.dteam_fqan]) (JStr "dteam-tenant")
           (Fixture.world [Fixture.tenant "dteam-tenant"] ∅)
           (Fixture.alice, "dteam-tenant")).
  by vm_compute.
Defined.

Lemma get_user_requested_tenant_neutral_witness :
  _get_user Fixture.uuid4_hex (Fixture.conf true true)
    (Fixture.middleware Fixture.two_entries)
    (Fixture.info "dteam" [Fixture.dteam_fqan]) (JStr "")
    (Fixture.world [Fixture.tenant "dteam-tenant"] ∅)
  = _get_user Fixture.uuid4_hex (Fixture.conf true true)
      (Fixture.middleware Fixture.two_entries)
      (Fixture.info "dteam" [Fixture.dteam_fqan]) JNull
      (Fixture.world [Fixture.tenant "dteam-tenant"] ∅).
Proof.
  apply (get_user_requested_tenant_neutral Fixture.uuid4_hex (Fixture.conf true true)
           (Fixture.middleware Fixture.two_entries)
           (Fixture.info "dteam" [Fixture.dteam_fqan]) (JStr "")).
  intros tenant _. reflexivity.
Defined.

(** ** The request as a whole *)

(** X22: the certificate chain handed to the validator holds exactly the
    values of the environment keys that start with SSL_CLIENT_CERT_CHAIN_. *)
Theorem make_ssl_dict_chain (env : Environ) (v : EnvVal) :
  v ∈ ssl_chain (make_ssl_dict env)
  ↔ ∃ k, String.prefix SSL_CLIENT_CERT_CHAIN_ENV_PREFIX k = true
         ∧ env !! k = Some v.
Proof.
  unfold make_ssl_dict. simpl. rewrite list_elem_of_fmap. split.
  - intros ([k v'] & -> & Hin). apply list_elem_of_In, filter_In in Hin as [Hin Hp].
    exists k. split; [done|].
    by apply list_elem_of_In, elem_of_map_to_list in Hin.
  - intros (k & Hp & Hk). exists (k, v). split; [done|].
    apply list_elem_of_In, filter_In. split; [|done].
    by apply list_elem_of_In, elem_of_map_to_list.
Qed.

Section WholeRequest.

Variable CertChain : Type.
Variable load_cert_chain : SslInfo → option CertChain.
Variable voms_retrieve : bool → CertChain → Z + VomsData.
Variable uuid4_hex : nat → string.
Variable PARAMS_ENV : string.
Variable CONF : Conf.
Variable self : Middleware.

Let outer := process_request CertChain load_cert_chain voms_retrieve
               uuid4_hex PARAMS_ENV CONF self.

Lemma process_request_outer_run w :
  outer w
  = if decide (env_get (environ w) "REMOTE_USER" = EnvNone) then
      match fst (is_applicable PARAMS_ENV w) with
      | inl e => (inr (RenderedException e), w)
      | inr false => (inr SelfApplication, w)
      | inr true =>
          match fst (_get_voms_info CertChain load_cert_chain voms_retrieve self
                       (make_ssl_dict (environ w)) w) with
          | inl e => (inr (RenderedException e), w)
          | inr voms_info =>
              match tenant_from_request PARAMS_ENV (environ w) with
              | inl e => (inr (RenderedException e), w)
              | inr req =>
                  match _get_user uuid4_hex CONF self voms_info req w with
                  | (inl e, w1) => (inr (RenderedException e), w1)
                  | (inr r, w1) =>
                      (inr PyNone,
                       {| backend := backend w1; uuid_drawn := uuid_drawn w1;
                          environ := <["REMOTE_USER" := EnvStr (fst r)]> (environ w1) |})
                  end
              end
          end
      end
    else (inr SelfApplication, w).
Proof.
  unfold outer. rewrite process_request_run, process_request_inner_run.
  case_decide; [|done].
  destruct (fst (is_applicable PARAMS_ENV w)) as [e|[]]; [done| |done].
  destruct (fst (_get_voms_info _ _ _ _ _ w)) as [e|voms_info]; [done|].
  destruct (tenant_from_request _ _) as [e|req]; [done|].
  by destruct (_get_user _ _ _ _ _ w) as [[e|r] w1].
Qed.

(** X23: processing is done once: a request that was authenticated by the
    filter is passed on untouched when it goes through the filter again. *)
Theorem process_request_second_pass (w : World) :
  fst (outer w) = inr PyNone →
  outer (snd (outer w)) = (inr SelfApplication, snd (outer w)).
Proof.
  rewrite (process_request_outer_run w).
  case_decide; [|done].
  destruct (fst (is_applicable PARAMS_ENV w)) as [e|[]]; [done| |done].
  destruct (fst (_get_voms_info _ _ _ _ _ w)) as [e|voms_info]; [done|].
  destruct (tenant_from_request _ _) as [e|req]; [done|].
  destruct (_get_user _ _ _ _ _ w) as [[e|r] w1]; [done|]. simpl. intros _.
  rewrite process_request_outer_run. simpl.
  case_decide as Hru; [|done].
  unfold env_get in Hru. by rewrite lookup_insert_eq in Hru.
Qed.

(** X24: when the certificates cannot be loaded or the native validator
    fails, the request ends with the rendered ValidationError or the
    rendered VomsError of the native code, and nothing was changed:
    validation comes before any access to the backend. *)
Theorem process_request_validation_failure (w : World) :
  env_get (environ w) "REMOTE_USER" = EnvNone →
  fst (is_applicable PARAMS_ENV w) = inr true →
  match load_cert_chain (make_ssl_dict (environ w)) with
  | None => outer w = (inr (RenderedException (ValidationError "SSL data")), w)
  | Some certs =>
      match voms_retrieve (_no_verify self) certs with
      | inl code => outer w = (inr (RenderedException (VomsError code)), w)
      | inr _ => True
      end
  end.
Proof.
  intros Hru Happ. rewrite process_request_outer_run, Happ.
  case_decide; [|done]. unfold _get_voms_info.
  destruct (load_cert_chain _) as [certs|]; [|done].
  by destruct (voms_retrieve _ certs).
Qed.

(** X25: with [autocreate_users] off the filter never writes to the
    identity backend and draws no identifier, whatever the request and
    its outcome. *)
Theorem process_request_readonly_without_autocreate (w : World) :
  autocreate_users CONF = false →
  backend (snd (outer w)) = backend w
  ∧ uuid_drawn (snd (outer w)) = uuid_drawn w.
Proof.
  intros Hauto. rewrite process_request_outer_run.
  case_decide; [|done].
  destruct (fst (is_applicable PARAMS_ENV w)) as [e|[]]; [done| |done].
  destruct (fst (_get_voms_info _ _ _ _ _ w)) as [e|voms_info]; [done|].
  destruct (tenant_from_request _ _) as [e|req]; [done|].
  pose proof (get_user_readonly uuid4_hex CONF self voms_info req w Hauto) as Hro.
  destruct (_get_user _ _ _ _ _ w) as [[e|r] w1]; simpl in *; by subst.
Qed.

End WholeRequest.

Lemma process_request_second_pass_witness :
  let outer :=
    process_request SslInfo Fixture.load_cert_chain
      (Fixture.retrieve (inr (Fixture.data "dteam" [Some Fixture.dteam_fqan; None])))
      Fixture.uuid4_hex Fixture.PARAMS_ENV (Fixture.conf true true)
      (Fixture.middleware Fixture.two_entries) in
  let w := Fixture.world [Fixture.tenant "dteam-tenant"] (Fixture.voms_request None) in
  outer (snd (outer w)) = (inr SelfApplication, snd (outer w)).
Proof.
  apply (process_request_second_pass SslInfo Fixture.load_cert_chain
           (Fixture.retrieve (inr (Fixture.data "dteam" [Some Fixture.dteam_fqan; None])))
           Fixture.uuid4_hex Fixture.PARAMS_ENV (Fixture.conf true true)
           (Fixture.middleware Fixture.two_entries)).
  by vm_compute.
Defined.

Lemma process_request_validation_failure_witness :
  let w := Fixture.world [Fixture.tenant "dteam-tenant"] (Fixture.voms_request None) in
  process_request SslInfo Fixture.load_cert_chain (Fixture.retrieve (inl 14))
    Fixture.uuid4_hex Fixture.PARAMS_ENV (Fixture.conf true true)
    (Fixture.middleware Fixture.two_entries) w
  = (inr (RenderedException (VomsError 14)), w).
Proof.
  apply (process_request_validation_failure SslInfo Fixture.load_cert_chain
           (Fixture.retrieve (inl 14)) Fixture.uuid4_hex Fixture.PARAMS_ENV
           (Fixture.conf true true) (Fixture.middleware Fixture.two_entries)
           (Fixture.world [Fixture.tenant "dteam-tenant"] (Fixture.voms_request None)));
    by vm_compute.
Defined.

Lemma process_request_readonly_without_autocreate_witness :
  let outer :=
    process_request SslInfo Fixture.load_cert_chain
      (Fixture.retrieve (inr (Fixture.data "dteam" [Some Fixture.dteam_fqan; None])))
      Fixture.uuid4_hex Fixture.PARAMS_ENV (Fixture.conf false true)
      (Fixture.middleware Fixture.two_entries) in
  let w := Fixture.world [Fixture.tenant "dteam-tenant"] (Fixture.voms_request None) in
  backend (snd (outer w)) = backend w ∧ uuid_drawn (snd (outer w)) = uuid_drawn w.
Proof.
  apply (process_request_readonly_without_autocreate SslInfo Fixture.load_cert_chain
           (Fixture.retrieve (inr (Fixture.data "dteam" [Some Fixture.dteam_fqan; None])))
           Fixture.uuid4_hex Fixture.PARAMS_ENV (Fixture.conf false true)
           (Fixture.middleware Fixture.two_entries)).
  reflexivity.
Defined.

(** ** Status and title of a [VomsError] *)

(** X26: every VomsError carries one of three status and title pairs, and
    its message is the native code and the description of its kind in
    parentheses. *)
Theorem voms_error_status_title (code : Z) :
  let e := VomsErr.__init__ code in
  (VomsErr.code e, VomsErr.title e)
    ∈ [ (400, "Bad Request"); (401, "Not Authorized"); (500, "Unexpected Error") ]
  ∧ VomsErr.message e
    = ("(" ++ Py.str_int code ++ ", "
         ++ VomsErr.fmt_s (snd (VomsErr.lookup code)) ++ ")")%string.
Proof.
  cbv zeta. unfold VomsErr.__init__.
  destruct (VomsErr.lookup code) as [sh msg]. cbn [snd].
  destruct (decide (code = 5)) as [->|?];
    [split; [apply list_elem_of_here|reflexivity]|].
  destruct (decide (code = 11)) as [->|?];
    [split; [apply list_elem_of_here|reflexivity]|].
  destruct (decide (code = 14)) as [->|?];
    [split; [apply list_elem_of_further, list_elem_of_here|reflexivity]|].
  rewrite http_codes_other by done. split; [|reflexivity].
  apply list_elem_of_further, list_elem_of_further, list_elem_of_here.
Qed.

(** ** Failures reach the caller as rendered exceptions *)

Section RenderedErrors.

Variable CertChain : Type.
Variable load_cert_chain : SslInfo → option CertChain.
Variable voms_retrieve : bool → CertChain → Z + VomsData.
Variable uuid4_hex : nat → string.
Variable PARAMS_ENV : string.
Variable CONF : Conf.
Variable self : Middleware.

Let validate := _get_voms_info CertChain load_cert_chain voms_retrieve self.
Let inner := _process_request CertChain load_cert_chain voms_retrieve
               uuid4_hex PARAMS_ENV CONF self.
Let outer := process_request CertChain load_cert_chain voms_retrieve
               uuid4_hex PARAMS_ENV CONF self.





End RenderedErrors.


(** A resolution failure on the same path: the VO is not in the table, the
    user has been autocreated, and the caller receives the rendered
    Unauthorized. *)
Example process_request_renders_resolution_failure :
  let w := Fixture.world [] (Fixture.voms_request None) in
  fst (process_request SslInfo Fixture.load_cert_chain
         (Fixture.retrieve (inr (Fixture.data "dteam" [Some Fixture.dteam_fqan; None])))
         Fixture.uuid4_hex Fixture.PARAMS_ENV (Fixture.conf true true)
         (Fixture.middleware ∅) w)
  = inr (RenderedException (Unauthorized (Some "Your VO is not authorized"))).
Proof. by vm_compute. Qed.

(** C10 on a successful login: the run returns None and the environment
    is the request's with REMOTE_USER set to the subject DN; the request
    parameters still name the tenant the caller sent. *)
Lemma process_request_environ_witness :
  let w := Fixture.world [Fixture.tenant "dteam-tenant"]
             (Fixture.voms_request (Some "dteam-tenant")) in
  let run :=
    process_request SslInfo Fixture.load_cert_chain
      (Fixture.retrieve (inr (Fixture.data "dteam" [Some Fixture.dteam_fqan; None])))
      Fixture.uuid4_hex Fixture.PARAMS_ENV (Fixture.conf true true)
      (Fixture.middleware Fixture.two_entries) w in
  let done :=
    _get_user Fixture.uuid4_hex (Fixture.conf true true)
      (Fixture.middleware Fixture.two_entries)
      (Fixture.info "dteam" [Fixture.dteam_fqan]) (JStr "dteam-tenant") w in
  ∃ req,
    tenant_from_request Fixture.PARAMS_ENV (environ w) = inr req
    ∧ run = (inr PyNone,
             {| backend := backend (snd done); uuid_drawn := uuid_drawn (snd done);
                environ := <["REMOTE_USER" := EnvStr Fixture.alice]> (environ w) |})
    ∧ environ (snd run) !! Fixture.PARAMS_ENV = environ w !! Fixture.PARAMS_ENV.
Proof.
  cbv zeta.
  pose proof
    (process_request_environ SslInfo Fixture.load_cert_chain
       (Fixture.retrieve (inr (Fixture.data "dteam" [Some Fixture.dteam_fqan; None])))
       Fixture.uuid4_hex Fixture.PARAMS_ENV (Fixture.conf true true)
       (Fixture.middleware Fixture.two_entries)
       (Fixture.world [Fixture.tenant "dteam-tenant"]
          (Fixture.voms_request (Some "dteam-tenant")))) as Hrun.
  cbv zeta in Hrun.
  destruct (decide (env_get _ "REMOTE_USER" = EnvNone)) as [_|Hru];
    [|exfalso; apply Hru; by vm_compute].
  destruct (fst (is_applicable _ _)) as [e|[]] eqn:Happ;
    [by vm_compute in Happ | | by vm_compute in Happ].
  destruct (fst (_get_voms_info _ _ _ _ _ _)) as [e|info] eqn:Hval;
    [by vm_compute in Hval|].
  assert (inr (Fixture.info "dteam" [Fixture.dteam_fqan]) = @inr Exn _ info)
    as Hinfo by (rewrite <- Hval; reflexivity).
  injection Hinfo as <-.
  destruct Hrun as (req & Hreq & Hm). exists req. split; [exact Hreq|].
  assert (inr (JStr "dteam-tenant") = @inr Exn _ req)
    as Hr by (rewrite <- Hreq; by vm_compute).
  injection Hr as <-.
  destruct (_get_user _ _ _ _ _ _) as [[e|r] w1] eqn:Hgu;
    [by vm_compute in Hgu|].
  exact Hm.
Defined.
